(** * Keeper analysis: the join-and-derive transform, the recommendation
    selector and the keeper-status mutator

    A shallow embedding of [src/app.py] (command-line entry point) and
    [src/api/index.py] (web entry point).

    Conventions of the embedding
    - Python [int] is [Z]; a JSON key read with [dict.get] and a pandas cell
      that may hold NaN/None is an [option]; [None] stands for NaN.
    - A pandas DataFrame is the list of its rows, in index order; a numeric
      column is a nullable column of integers (rounds, picks and ranks are
      whole numbers in both data files).  The dtype of a column is modelled
      where the code depends on it: the keeper-round column, which pandas
      builds with dtype object when no row has a keeper round, and on which
      [nlargest] then raises.
    - Strings are [string] (8-bit characters); [str.strip] and [str.lower]
      are the ASCII restrictions of the Python functions.
    - A source that cannot be opened or parsed is [None].  The records hold
      the keys the source reads with [d['key']]; an exception for a missing
      key or a cell of another type is outside the model, and so are the
      [except] branches it would reach.
    - The pandas calls are modelled by their documented contracts, stated
      with each definition of the module [pd]. *)

From Stdlib Require Import ZArith Ascii.
From stdpp Require Import gmap strings list sorting.

Local Open Scope Z_scope.

(** ** Python string functions used by the source *)

Module Str.

(** [str.isspace] on one ASCII character: TAB, LF, VT, FF, CR, the four
    separators 0x1c-0x1f and the space. *)
Definition isspace (c : ascii) : bool :=
  let n := nat_of_ascii c in
  ((9 <=? n) && (n <=? 13) || (28 <=? n) && (n <=? 32))%nat.

Fixpoint lstrip (s : string) : string :=
  match s with
  | String c s' => if isspace c then lstrip s' else s
  | EmptyString => EmptyString
  end.

Definition rstrip (s : string) : string := String.rev (lstrip (String.rev s)).

(** [s.strip()] *)
Definition strip (s : string) : string := rstrip (lstrip s).

Definition lower_char (c : ascii) : ascii :=
  let n := nat_of_ascii c in
  if ((65 <=? n) && (n <=? 90))%nat then ascii_of_nat (n + 32) else c.

(** [s.lower()] *)
Fixpoint lower (s : string) : string :=
  match s with
  | String c s' => String (lower_char c) (lower s')
  | EmptyString => EmptyString
  end.

(** [s.startswith(pre)] *)
Definition startswith (pre s : string) : bool := String.prefix pre s.

(** [needle in hay] *)
Fixpoint contains (needle hay : string) : bool :=
  String.prefix needle hay ||
  match hay with
  | String _ hay' => contains needle hay'
  | EmptyString => false
  end.

End Str.

(** ** The pandas operations used by the source *)

Module pd.

(** [pd.notna(x)] *)
Definition notna {A} (x : option A) : bool :=
  match x with Some _ => true | None => false end.

(** A stable sort by a boolean total preorder on keys: the element of the
    head is put before the first later element that is not smaller. *)
Section StableSort.
Context {A K : Type} (leb : K → K → bool) (key : A → K).

Fixpoint insert_sorted (x : A) (l : list A) : list A :=
  match l with
  | [] => [x]
  | y :: l' =>
      if leb (key x) (key y) then x :: y :: l' else y :: insert_sorted x l'
  end.

Fixpoint stable_sort (l : list A) : list A :=
  match l with
  | [] => []
  | x :: l' => insert_sorted x (stable_sort l')
  end.

(** The order of two rows by their keys. *)
Definition key_le (x y : A) : Prop := leb (key x) (key y) = true.
End StableSort.

(** Ascending order of a nullable numeric column, [na_position='last']. *)
Definition asc_leb (a b : option Z) : bool :=
  match a, b with
  | Some x, Some y => x <=? y
  | _, None => true
  | None, Some _ => false
  end.

(** Descending order of a nullable numeric column, NaN still last. *)
Definition desc_leb (a b : option Z) : bool :=
  match a, b with
  | Some x, Some y => y <=? x
  | _, None => true
  | None, Some _ => false
  end.

(** [df.sort_values(col)]: ascending, NaN last.  The default algorithm of
    pandas does not promise an order among equal keys; the model keeps the
    frame order there. *)
Definition sort_values {A} (col : A → option Z) (df : list A) : list A :=
  stable_sort asc_leb col df.

(** The dtype pandas infers for a column it builds from Python numbers and
    [None]s ([Series.apply], [DataFrame.apply(axis=1)]): one number makes
    the column numeric (int64, or float64 with NaN for each [None]); a
    column of [None]s only has dtype object. *)
Inductive Dtype := numeric | object.

Definition infer_dtype (values : list (option Z)) : Dtype :=
  if existsb notna values then numeric else object.

(** The rows [nlargest] selects on a numeric column, with the default
    [keep='first']: the first [n] rows of the frame ordered by descending
    [col], NaN last, rows with equal values in frame order (pandas documents
    it as equivalent to [df.sort_values(col, ascending=False).head(n)]). *)
Definition largest_rows {A} (n : nat) (col : A → option Z) (df : list A)
    : list A :=
  take n (stable_sort desc_leb col df).

(** [df.nlargest(n, col)] on a column of the given dtype: on a column of
    dtype object pandas raises [TypeError], which is [None] here. *)
Definition nlargest {A} (n : nat) (dtype : Dtype) (col : A → option Z)
    (df : list A) : option (list A) :=
  match dtype with
  | numeric => Some (largest_rows n col df)
  | object => None
  end.

(** [pd.merge(left, right, on=key, how='left')]: the rows of [left] in
    order, each paired with every row of [right] that has the same key, in
    the order of [right]; a left row without a partner is kept once with
    the right columns null. *)
Definition merge_left {L R K} `{EqDecision K}
    (lkey : L → K) (rkey : R → K) (left : list L) (right : list R)
    : list (L * option R) :=
  left ≫= λ l,
    match filter (λ r, rkey r = lkey l) right with
    | [] => [(l, None)]
    | partners => (λ r, (l, Some r)) <$> partners
    end.

(** Subtraction of two nullable numeric columns: NaN propagates. *)
Definition sub (a b : option Z) : option Z :=
  match a, b with
  | Some x, Some y => Some (x - y)
  | _, _ => None
  end.

End pd.

(** ** Data model *)

(** [draft_results.json] *)

Module DraftInfo.
Record t := mk {
  total_teams : Z;
  total_rounds : Z;
  draft_type : string
}.
End DraftInfo.

Module Team.
Record t := mk {
  team_id : Z;
  team_name : string;
  manager : string;
  rank : Z;
  rating : Z;
  level : string
}.
End Team.

(** The keys the source reads with [pick.get] are optional. *)
Module DraftPick.
Record t := mk {
  player_name : string;
  team_id : Z;
  drafting_team : string;
  round : option Z;
  overall_pick : option Z;
  keeper_status : bool;
  keeper_eligible_2025 : option bool;
  waiver_pickup : option bool
}.
End DraftPick.

Module DraftData.
Record t := mk {
  draft_info : DraftInfo.t;
  teams : list Team.t;
  draft_picks : list DraftPick.t
}.
End DraftData.

(** A row of [fantasy_pros.csv] after the renaming of its columns
    ([PLAYER NAME], [RK], [POS]). *)
Module RankingRow.
Record t := mk {
  player_name : string;
  draft_rank_2025 : option Z;
  position_rank_2025 : option string
}.
End RankingRow.

(** An element of [draft_records]. *)
Module DraftRecord.
Record t := mk {
  player_name : string;
  manager_2024 : string;
  draft_round_2024 : option Z;
  overall_pick_2024 : option Z;
  keeper_status_2024 : bool;
  keeper_eligible_2025 : bool;
  waiver_pickup : bool
}.
End DraftRecord.

(** A row of [merged_df] before the derived columns are added. *)
Module Merged.
Record t := mk {
  draft : DraftRecord.t;
  player_name_clean : string;
  draft_rank_2025 : option Z;
  position_rank_2025 : option string
}.
Definition waiver_pickup (row : t) : bool := DraftRecord.waiver_pickup (draft row).
Definition draft_round_2024 (row : t) : option Z :=
  DraftRecord.draft_round_2024 (draft row).
End Merged.

(** A row of the result, with the columns of [final_columns]. *)
Module KeeperRecord.
Record t := mk {
  player_name : string;
  manager_2024 : string;
  draft_round_2024 : option Z;
  overall_pick_2024 : option Z;
  keeper_status_2024 : bool;
  keeper_eligible_2025 : bool;
  draft_rank_2025 : option Z;
  position_rank_2025 : option string;
  projected_draft_round_2025 : option Z;
  keeper_round_2025 : option Z;
  waiver_pickup : bool
}.
End KeeperRecord.

(** The two sources as the transform finds them. *)
Record Sources := {
  draft_results : option DraftData.t;
  fantasy_pros : option (list RankingRow.t)
}.

(** ** The transform: [create_keeper_analysis_dataframe] *)

(** [team_to_manager[team['team_name']] = team['manager']] for each team in
    turn: a later team of the same name overwrites an earlier one. *)
Definition team_to_manager (teams : list Team.t) : gmap string string :=
  foldl (λ m team, <[Team.team_name team := Team.manager team]> m) ∅ teams.

Definition draft_record (t2m : gmap string string) (pick : DraftPick.t)
    : DraftRecord.t :=
  let manager_name :=
    default (DraftPick.drafting_team pick) (t2m !! DraftPick.drafting_team pick) in
  {| DraftRecord.player_name := DraftPick.player_name pick;
     DraftRecord.manager_2024 := manager_name;
     DraftRecord.draft_round_2024 := DraftPick.round pick;
     DraftRecord.overall_pick_2024 := DraftPick.overall_pick pick;
     DraftRecord.keeper_status_2024 := DraftPick.keeper_status pick;
     DraftRecord.keeper_eligible_2025 :=
       default true (DraftPick.keeper_eligible_2025 pick);
     DraftRecord.waiver_pickup := default false (DraftPick.waiver_pickup pick) |}.

Definition clean_draft (r : DraftRecord.t) : string :=
  Str.strip (DraftRecord.player_name r).

Definition clean_ranking (r : RankingRow.t) : string :=
  Str.strip (RankingRow.player_name r).

Definition merged_row (p : DraftRecord.t * option RankingRow.t) : Merged.t :=
  {| Merged.draft := p.1;
     Merged.player_name_clean := clean_draft p.1;
     Merged.draft_rank_2025 := p.2 ≫= RankingRow.draft_rank_2025;
     Merged.position_rank_2025 := p.2 ≫= RankingRow.position_rank_2025 |}.

(** [pd.merge(draft_df, fantasy_df[...], on='player_name_clean', how='left')] *)
Definition merge (draft_df : list DraftRecord.t) (fantasy_df : list RankingRow.t)
    : list Merged.t :=
  merged_row <$> pd.merge_left clean_draft clean_ranking draft_df fantasy_df.

(** The ranking rows a draft record is joined with. *)
Definition partners (d : DraftRecord.t) (fantasy_df : list RankingRow.t)
    : list RankingRow.t :=
  filter (λ r, clean_ranking r = clean_draft d) fantasy_df.

(** [math.ceil(x / d)] for a whole number [x] and a positive [d]: the
    ceiling of the exact quotient (the float quotient of the source has the
    same ceiling for every rank a rankings file can hold). *)
Definition ceil_div (x d : Z) : Z := - ((- x) / d).

(** [lambda x: math.ceil(x / 12) if pd.notna(x) else None] *)
Definition projected_draft_round (x : option Z) : option Z :=
  match x with
  | Some rank => Some (ceil_div rank 12)
  | None => None
  end.

Definition calculate_keeper_round (row : Merged.t) : option Z :=
  if Merged.waiver_pickup row then Some 5
  else match Merged.draft_round_2024 row with
       | Some round => Some (Z.max 1 (round - 1))
       | None => None
       end.

(** The derived columns, then [merged_df[final_columns]]. *)
Definition final_columns (row : Merged.t) : KeeperRecord.t :=
  let d := Merged.draft row in
  {| KeeperRecord.player_name := DraftRecord.player_name d;
     KeeperRecord.manager_2024 := DraftRecord.manager_2024 d;
     KeeperRecord.draft_round_2024 := DraftRecord.draft_round_2024 d;
     KeeperRecord.overall_pick_2024 := DraftRecord.overall_pick_2024 d;
     KeeperRecord.keeper_status_2024 := DraftRecord.keeper_status_2024 d;
     KeeperRecord.keeper_eligible_2025 := DraftRecord.keeper_eligible_2025 d;
     KeeperRecord.draft_rank_2025 := Merged.draft_rank_2025 row;
     KeeperRecord.position_rank_2025 := Merged.position_rank_2025 row;
     KeeperRecord.projected_draft_round_2025 :=
       projected_draft_round (Merged.draft_rank_2025 row);
     KeeperRecord.keeper_round_2025 := calculate_keeper_round row;
     KeeperRecord.waiver_pickup := DraftRecord.waiver_pickup d |}.

(** [astype(str)] of the position column: a null cell reads ["nan"]. *)
Definition position_str (r : KeeperRecord.t) : string :=
  default "nan" (KeeperRecord.position_rank_2025 r).

(** [.str.startswith(('K', 'DST'), na=False)] *)
Definition kicker_or_defense (r : KeeperRecord.t) : bool :=
  Str.startswith "K" (position_str r) || Str.startswith "DST" (position_str r).

(** The body of the [try] block, once both sources are parsed.  With no
    draft pick at all [pd.DataFrame([])] has no column, and reading
    [draft_df['player_name']] raises. *)
Definition keeper_analysis_dataframe
    (draft_data : DraftData.t) (fantasy_df : list RankingRow.t)
    : option (list KeeperRecord.t) :=
  let t2m := team_to_manager (DraftData.teams draft_data) in
  let draft_records := draft_record t2m <$> DraftData.draft_picks draft_data in
  match draft_records with
  | [] => None
  | _ =>
      let merged_df := merge draft_records fantasy_df in
      let result_df := final_columns <$> merged_df in
      let result_df := filter (λ r, kicker_or_defense r = false) result_df in
      let result_df :=
        filter (λ r, pd.notna (KeeperRecord.draft_rank_2025 r) = true) result_df in
      Some (pd.sort_values KeeperRecord.overall_pick_2024 result_df)
  end.

(** The transform on the sources: any failure is terminal. *)
Definition transform (src : Sources) : option (list KeeperRecord.t) :=
  match draft_results src, fantasy_pros src with
  | Some draft_data, Some fantasy_df => keeper_analysis_dataframe draft_data fantasy_df
  | _, _ => None
  end.

(** [src/app.py]: the [except] branches return [None]. *)
Module Cli.
Definition create_keeper_analysis_dataframe (src : Sources)
    : option (list KeeperRecord.t) :=
  transform src.
End Cli.

(** [src/api/index.py]: the [except] branch returns the empty
    [pd.DataFrame()]. *)
Module Api.
Definition create_keeper_analysis_dataframe (src : Sources)
    : list KeeperRecord.t :=
  default [] (transform src).

(** The dtype of the ['2025_keeper_round'] column of that frame.  The column
    is built by [merged_df.apply(calculate_keeper_round_local, axis=1)] from
    the results on all the rows of [merged_df], and the two filters and the
    sort that follow keep the dtype of the column.  The empty frame of the
    [except] branch has no column; [object] stands for that. *)
Definition keeper_round_dtype (src : Sources) : pd.Dtype :=
  match draft_results src, fantasy_pros src with
  | Some draft_data, Some fantasy_df =>
      let t2m := team_to_manager (DraftData.teams draft_data) in
      let draft_records := draft_record t2m <$> DraftData.draft_picks draft_data in
      let merged_df := merge draft_records fantasy_df in
      pd.infer_dtype (calculate_keeper_round <$> merged_df)
  | _, _ => pd.object
  end.
End Api.

(** ** The recommendation selector: [api_keeper_recommendations] *)

(** A row of [manager_df] once the [keeper_value] column is added. *)
Module Recommendation.
Record t := mk {
  row : KeeperRecord.t;
  keeper_value : option Z
}.
End Recommendation.

Inductive Status := success | error.

(** The JSON bodies the endpoint answers with. *)
Inductive Response :=
  | NoDataAvailable
      (* {'error': 'No data available', 'status': 'error'}, 404 *)
  | NoEligibleKeepers (manager : string)
      (* {'manager', 'recommendations': [], 'message', 'status': 'success'} *)
  | Recommendations (manager : string) (recommendations : list Recommendation.t)
      (* {'manager', 'recommendations', 'status': 'success'} *)
  | InternalServerError.
      (* {'error': 'Internal server error', 'status': 'error'}, 500 *)

Definition status (r : Response) : Status :=
  match r with
  | NoDataAvailable | InternalServerError => error
  | NoEligibleKeepers _ | Recommendations _ _ => success
  end.

(** The rows under the ['recommendations'] key; an error body has none. *)
Definition recommendations (r : Response) : list Recommendation.t :=
  match r with
  | NoDataAvailable | NoEligibleKeepers _ | InternalServerError => []
  | Recommendations _ recs => recs
  end.

(** [df[(df['2024_manager'] == manager) & (df['2025_keeper_eligible'] == True)]] *)
Definition eligible_for (manager : string) (r : KeeperRecord.t) : Prop :=
  KeeperRecord.manager_2024 r = manager ∧ KeeperRecord.keeper_eligible_2025 r = true.

Global Instance eligible_for_dec manager r : Decision (eligible_for manager r).
Proof. unfold eligible_for. apply _. Defined.

(** [manager_df['keeper_value'] = projected round - keeper round] *)
Definition with_keeper_value (r : KeeperRecord.t) : Recommendation.t :=
  {| Recommendation.row := r;
     Recommendation.keeper_value :=
       pd.sub (KeeperRecord.projected_draft_round_2025 r)
              (KeeperRecord.keeper_round_2025 r) |}.

(** The endpoint as a function of the frame the transform hands it: the
    rows [df] and the dtype of its keeper-round column.  Every row of the
    frame has a rank, so the projected-round column of a frame with a row is
    numeric, and the [keeper_value] column has the dtype of the keeper-round
    column: the difference of a numeric column and a column of dtype object
    is a column of dtype object.  The [TypeError] that [nlargest] raises on
    it is caught by the [except] branch of the handler. *)
Definition keeper_recommendations (keeper_round_dtype : pd.Dtype)
    (df : list KeeperRecord.t) (manager : string) : Response :=
  match df with
  | [] => NoDataAvailable
  | _ =>
      match filter (eligible_for manager) df with
      | [] => NoEligibleKeepers manager
      | manager_df =>
          let manager_df := with_keeper_value <$> manager_df in
          match pd.nlargest 5 keeper_round_dtype
                  Recommendation.keeper_value manager_df with
          | Some recommendations => Recommendations manager recommendations
          | None => InternalServerError
          end
      end
  end.

Definition api_keeper_recommendations (src : Sources) (manager : string)
    : Response :=
  keeper_recommendations (Api.keeper_round_dtype src)
    (Api.create_keeper_analysis_dataframe src) manager.

(** ** The keeper-status mutator: [update_keeper] *)

(** What the command prints. *)
Inductive Report :=
  | PlayerNameRequired
  | DraftResultsUnreadable
  | NoPlayerFound (player_name : string)
  | MultiplePlayersFound (matching_players : list DraftPick.t)
  | Updated (player_name : string) (new_status : bool).

(** [player_name.lower() in pick['player_name'].lower()] *)
Definition name_matches (player_name : string) (pick : DraftPick.t) : Prop :=
  Str.contains (Str.lower player_name) (Str.lower (DraftPick.player_name pick)) = true.

Global Instance name_matches_dec player_name pick :
  Decision (name_matches player_name pick).
Proof. unfold name_matches. apply _. Defined.

Definition with_keeper_status (pick : DraftPick.t) (new_status : bool)
    : DraftPick.t :=
  {| DraftPick.player_name := DraftPick.player_name pick;
     DraftPick.team_id := DraftPick.team_id pick;
     DraftPick.drafting_team := DraftPick.drafting_team pick;
     DraftPick.round := DraftPick.round pick;
     DraftPick.overall_pick := DraftPick.overall_pick pick;
     DraftPick.keeper_status := new_status;
     DraftPick.keeper_eligible_2025 := DraftPick.keeper_eligible_2025 pick;
     DraftPick.waiver_pickup := DraftPick.waiver_pickup pick |}.

(** The loop over [draft_data['draft_picks']]: the first pick with the
    player's name and team gets the new status, then [break]. *)
Fixpoint set_keeper_status (player : DraftPick.t) (new_status : bool)
    (picks : list DraftPick.t) : list DraftPick.t :=
  match picks with
  | [] => []
  | pick :: picks' =>
      if decide (DraftPick.player_name pick = DraftPick.player_name player ∧
                 DraftPick.team_id pick = DraftPick.team_id player)
      then with_keeper_status pick new_status :: picks'
      else pick :: set_keeper_status player new_status picks'
  end.

(** The command on the line the operator types and on the content of
    [data/draft_results.json].  The second component is what [json.dump]
    writes: [None] when the file is never opened for writing. *)
Definition update_keeper (input : string) (file : option DraftData.t)
    : Report * option DraftData.t :=
  let player_name := Str.strip input in
  if decide (player_name = "") then (PlayerNameRequired, None)
  else
    match file with
    | None => (DraftResultsUnreadable, None)
    | Some draft_data =>
        let matching_players :=
          filter (name_matches player_name) (DraftData.draft_picks draft_data) in
        match matching_players with
        | [] => (NoPlayerFound player_name, None)
        | player :: others =>
            if decide (1 < length matching_players)%nat
            then (MultiplePlayersFound matching_players, None)
            else
              let new_status := negb (DraftPick.keeper_status player) in
              let draft_data' :=
                {| DraftData.draft_info := DraftData.draft_info draft_data;
                   DraftData.teams := DraftData.teams draft_data;
                   DraftData.draft_picks :=
                     set_keeper_status player new_status
                       (DraftData.draft_picks draft_data) |} in
              (Updated (DraftPick.player_name player) new_status, Some draft_data')
        end
    end.

(** The content of the file once the command has run. *)
Definition stored_after (file written : option DraftData.t) : option DraftData.t :=
  match written with
  | Some draft_data => Some draft_data
  | None => file
  end.

(** ** Python built-ins used by the other endpoints and commands *)

Module Py.

(** [sorted(l, key=...)] and [l.sort(key=...)] on whole-number keys: stable,
    ascending. *)
Definition sorted {A} (key : A → Z) (l : list A) : list A :=
  pd.stable_sort Z.leb key l.

(** [sorted(names)] on strings: Python orders [str] by code point, which
    is the byte order of the strings of the model. *)
Definition sorted_str (l : list string) : list string :=
  pd.stable_sort String.leb id l.

(** [l.sort(key=lambda x: x['k'])] when the key ['k'] may be absent: the key
    function raises [KeyError] at the first element without it, before any
    element is moved; [None] is that exception. *)
Definition sort_by_key {A} (key : A → option Z) (l : list A) : option (list A) :=
  if decide (Forall (λ x, is_Some (key x)) l)
  then Some (pd.stable_sort pd.asc_leb key l)
  else None.

(** [Series.unique()]: the values in order of first appearance. *)
Fixpoint unique (l : list string) : list string :=
  match l with
  | [] => []
  | x :: l' => x :: filter (λ y, y ≠ x) (unique l')
  end.

(** [next(x for x in l if P x)]: [None] is [StopIteration]. *)
Definition next {A} (P : A → Prop) `{!∀ x, Decision (P x)} (l : list A) : option A :=
  head (filter P l).

(** A [for] loop whose body prints the lines of one element, or raises
    before it prints any of them: the lines printed, and whether the loop
    ran to its end. *)
Fixpoint print_each {A L} (line : A → option L) (l : list A) : list L * bool :=
  match l with
  | [] => ([], true)
  | x :: l' =>
      match line x with
      | Some printed => let rest := print_each line l' in (printed :: rest.1, rest.2)
      | None => ([], false)
      end
  end.

End Py.

(** ** The pages and the other JSON endpoints *)

(** What a page handler renders: [error.html] with its message, or
    [keeper_analysis.html] with the players and the managers of the filter. *)
Inductive Page :=
  | ErrorPage (error_message : string)
  | KeeperAnalysisPage (players : list KeeperRecord.t) (managers : list string).

(** [sorted(df['2024_manager'].dropna().unique().tolist())]; the manager
    column holds no null, so [dropna] keeps every row. *)
Definition unique_managers (df : list KeeperRecord.t) : list string :=
  Py.sorted_str (Py.unique (KeeperRecord.manager_2024 <$> df)).

(** [src/api/index.py] *)
Module Web.

(** [keeper_analysis], the page at [/keeper-analysis]. *)
Definition keeper_analysis (src : Sources) : Page :=
  match Api.create_keeper_analysis_dataframe src with
  | [] => ErrorPage "Unable to load keeper analysis data"
  | df => KeeperAnalysisPage df (unique_managers df)
  end.

Inductive PlayersResponse :=
  | PlayersNoData
      (* {'error': 'No data available', 'status': 'error'}, 404 *)
  | Players (players : list KeeperRecord.t) (total_count : nat).
      (* {'players', 'total_count', 'status': 'success'} *)

Definition api_players (src : Sources) : PlayersResponse :=
  match Api.create_keeper_analysis_dataframe src with
  | [] => PlayersNoData
  | df => Players df (length df)
  end.

Inductive ManagersResponse :=
  | ManagersNoData
      (* {'error': 'No data available', 'status': 'error'}, 404 *)
  | Managers (managers : list string).
      (* {'managers', 'status': 'success'} *)

Definition api_managers (src : Sources) : ManagersResponse :=
  match Api.create_keeper_analysis_dataframe src with
  | [] => ManagersNoData
  | df => Managers (unique_managers df)
  end.

End Web.

(** ** The other commands of [src/app.py] *)

Module Commands.

(** [keeper_analysis_web], the page at [/]: [df.where(pd.notna(df), None)]
    turns NaN into None, the same null of the model; there is no test of
    [df.empty] here. *)
Definition keeper_analysis_web (src : Sources) : Page :=
  match Cli.create_keeper_analysis_dataframe src with
  | None => ErrorPage "Failed to load data. Please check that data files exist."
  | Some df => KeeperAnalysisPage df (unique_managers df)
  end.

(** What the [keeper_analysis] command prints. *)
Inductive AnalysisReport :=
  | FailedToCreateDataframe
  | AnalysisAborted (total_players matched_players : nat)
      (* the summary and the keepers' title, then "Error in keeper analysis:
         '2024_team'" *)
  | Analysis (total_players matched_players : nat)
             (best_keeper_values : list Recommendation.t).
      (* the summary, the best keeper values when there are some, and the
         closing line *)

(** [(keepers_df['2025_keeper_eligible'] == True) &
     (keepers_df['2025_projected_draft_round'] > keepers_df['2025_keeper_round'])];
    a comparison with NaN is false. *)
Definition valuable (r : KeeperRecord.t) : Prop :=
  KeeperRecord.keeper_eligible_2025 r = true ∧
  match KeeperRecord.projected_draft_round_2025 r,
        KeeperRecord.keeper_round_2025 r with
  | Some projected, Some keeper => keeper < projected
  | _, _ => False
  end.

Global Instance valuable_dec r : Decision (valuable r).
Proof.
  unfold valuable.
  destruct (KeeperRecord.projected_draft_round_2025 r),
           (KeeperRecord.keeper_round_2025 r); apply _.
Defined.

(** The [keeper_analysis] command.  The loop over the keepers reads
    [keeper['2024_team']] in both branches of its first statement that
    prints; the frame has no such column ([final_columns]), so the first
    keeper raises [KeyError], which the [except] of the command reports. *)
Definition keeper_analysis (src : Sources) : AnalysisReport :=
  match Cli.create_keeper_analysis_dataframe src with
  | None => FailedToCreateDataframe
  | Some df =>
      let total_players := length df in
      let matched_players :=
        length (filter (λ r, pd.notna (KeeperRecord.draft_rank_2025 r) = true) df) in
      let keepers_df := filter (λ r, KeeperRecord.keeper_status_2024 r = true) df in
      match keepers_df with
      | keeper :: _ => AnalysisAborted total_players matched_players
      | [] =>
          let valuable_keepers := with_keeper_value <$> filter valuable keepers_df in
          let valuable_keepers :=
            pd.stable_sort pd.desc_leb Recommendation.keeper_value valuable_keepers in
          Analysis total_players matched_players (take 10 valuable_keepers)
      end
  end.

(** A line of a listing of picks: round, overall pick, player, the team that
    drafted him and its manager where the command prints them, and the mark
    of the line ("(K)", "(2024 Keeper)", "Eligible"). *)
Module Line.
Record t := mk {
  round : Z;
  overall_pick : Z;
  player_name : string;
  drafting_team : string;
  manager : string;
  mark : bool
}.
End Line.

(** What a listing command prints: a message, or the lines of its loop and
    whether the loop ran to its end ("Error: ..." is printed otherwise). *)
Inductive Listing :=
  | NameRequired
  | FileNotFound
  | NothingFound (name : string)
  | SeveralFound (names : list string)
  | NothingToList
  | Failed
  | Listed (lines : list Line.t) (completed : bool).

(** [team_name.lower() in team['team_name'].lower()] *)
Definition team_matches (team_name : string) (team : Team.t) : Prop :=
  Str.contains (Str.lower team_name) (Str.lower (Team.team_name team)) = true.

Global Instance team_matches_dec team_name team :
  Decision (team_matches team_name team).
Proof. unfold team_matches. apply _. Defined.

(** The line of [team_roster] for a pick: [pick['round']] and
    [pick['overall_pick']] must be there. *)
Definition roster_line (team : Team.t) (pick : DraftPick.t) : option Line.t :=
  round ← DraftPick.round pick;
  overall_pick ← DraftPick.overall_pick pick;
  Some (Line.mk round overall_pick (DraftPick.player_name pick)
          (Team.team_name team) (Team.manager team) (DraftPick.keeper_status pick)).

(** [team_roster] on the line typed and the content of the file. *)
Definition team_roster (input : string) (file : option DraftData.t) : Listing :=
  let team_name := Str.strip input in
  if decide (team_name = "") then NameRequired
  else
    match file with
    | None => FileNotFound
    | Some draft_data =>
        let matching_teams :=
          filter (team_matches team_name) (DraftData.teams draft_data) in
        match matching_teams with
        | [] => NothingFound team_name
        | selected_team :: _ =>
            if decide (1 < length matching_teams)%nat
            then SeveralFound (Team.team_name <$> matching_teams)
            else
              let team_picks :=
                filter (λ pick, DraftPick.team_id pick = Team.team_id selected_team)
                       (DraftData.draft_picks draft_data) in
              match Py.sort_by_key DraftPick.overall_pick team_picks with
              | None => Failed
              | Some team_picks =>
                  let printed := Py.print_each (roster_line selected_team) team_picks in
                  Listed printed.1 printed.2
              end
        end
    end.

(** [league_standings]: the teams in the order they are printed. *)
Definition league_standings (file : option DraftData.t) : option (list Team.t) :=
  draft_data ← file;
  Some (Py.sorted Team.rank (DraftData.teams draft_data)).

(** [next(team for team in draft_data['teams'] if team['team_id'] == ...)] *)
Definition team_info (draft_data : DraftData.t) (pick : DraftPick.t) : option Team.t :=
  Py.next (λ team, Team.team_id team = DraftPick.team_id pick)
          (DraftData.teams draft_data).

(** [pick.get('2025_keeper_eligible', True)] *)
Definition eligible_2025 (pick : DraftPick.t) : bool :=
  default true (DraftPick.keeper_eligible_2025 pick).

(** The two lines a keeper listing prints for a pick, as one line of the
    model; [mark] is what the command shows besides. *)
Definition pick_line (draft_data : DraftData.t) (mark : DraftPick.t → bool)
    (pick : DraftPick.t) : option Line.t :=
  team ← team_info draft_data pick;
  round ← DraftPick.round pick;
  overall_pick ← DraftPick.overall_pick pick;
  Some (Line.mk round overall_pick (DraftPick.player_name pick)
          (DraftPick.drafting_team pick) (Team.manager team) (mark pick)).

(** The body shared by the three listings: the picks selected, sorted by
    overall pick, one line each. *)
Definition list_picks (draft_data : DraftData.t) (mark : DraftPick.t → bool)
    (selected : list DraftPick.t) : Listing :=
  match selected with
  | [] => NothingToList
  | _ =>
      match Py.sort_by_key DraftPick.overall_pick selected with
      | None => Failed
      | Some selected =>
          let printed := Py.print_each (pick_line draft_data mark) selected in
          Listed printed.1 printed.2
      end
  end.

(** [list_keepers] *)
Definition list_keepers (file : option DraftData.t) : Listing :=
  match file with
  | None => FileNotFound
  | Some draft_data =>
      list_picks draft_data (λ _, true)
        (filter (λ pick, DraftPick.keeper_status pick = true)
                (DraftData.draft_picks draft_data))
  end.

(** [keeper_ineligible]: the mark is "(2024 Keeper)". *)
Definition keeper_ineligible (file : option DraftData.t) : Listing :=
  match file with
  | None => FileNotFound
  | Some draft_data =>
      list_picks draft_data DraftPick.keeper_status
        (filter (λ pick, eligible_2025 pick = false)
                (DraftData.draft_picks draft_data))
  end.

(** [eligible_keepers]: the mark is the eligibility; the summary
    [eligible_count/len(keepers)] is printed when the loop ran to its end. *)
Definition eligible_keepers (file : option DraftData.t)
    : Listing * option (nat * nat) :=
  match file with
  | None => (FileNotFound, None)
  | Some draft_data =>
      let keepers :=
        filter (λ pick, DraftPick.keeper_status pick = true)
               (DraftData.draft_picks draft_data) in
      let listing := list_picks draft_data eligible_2025 keepers in
      match listing with
      | Listed lines true =>
          (listing,
           Some (length (filter (λ line, Line.mark line = true) lines),
                 length keepers))
      | _ => (listing, None)
      end
  end.

End Commands.

(** ** Notions used to state the properties *)

(** The rows of the result, for the draft records of a draft with picks:
    the steps of [create_keeper_analysis_dataframe] after [draft_df]. *)
Definition analysis_rows (draft_records : list DraftRecord.t)
    (fantasy_df : list RankingRow.t) : list KeeperRecord.t :=
  pd.sort_values KeeperRecord.overall_pick_2024
    (filter (λ r, pd.notna (KeeperRecord.draft_rank_2025 r) = true)
       (filter (λ r, kicker_or_defense r = false)
          (final_columns <$> merge draft_records fantasy_df))).

(** A draft record, a merged row and a result row with the keeper status
    blanked: what is left is everything but the [keeper_status] flag. *)
Definition draft_sans_status (d : DraftRecord.t) : DraftRecord.t :=
  {| DraftRecord.player_name := DraftRecord.player_name d;
     DraftRecord.manager_2024 := DraftRecord.manager_2024 d;
     DraftRecord.draft_round_2024 := DraftRecord.draft_round_2024 d;
     DraftRecord.overall_pick_2024 := DraftRecord.overall_pick_2024 d;
     DraftRecord.keeper_status_2024 := false;
     DraftRecord.keeper_eligible_2025 := DraftRecord.keeper_eligible_2025 d;
     DraftRecord.waiver_pickup := DraftRecord.waiver_pickup d |}.

Definition merged_sans_status (row : Merged.t) : Merged.t :=
  {| Merged.draft := draft_sans_status (Merged.draft row);
     Merged.player_name_clean := Merged.player_name_clean row;
     Merged.draft_rank_2025 := Merged.draft_rank_2025 row;
     Merged.position_rank_2025 := Merged.position_rank_2025 row |}.

Definition sans_status (r : KeeperRecord.t) : KeeperRecord.t :=
  {| KeeperRecord.player_name := KeeperRecord.player_name r;
     KeeperRecord.manager_2024 := KeeperRecord.manager_2024 r;
     KeeperRecord.draft_round_2024 := KeeperRecord.draft_round_2024 r;
     KeeperRecord.overall_pick_2024 := KeeperRecord.overall_pick_2024 r;
     KeeperRecord.keeper_status_2024 := false;
     KeeperRecord.keeper_eligible_2025 := KeeperRecord.keeper_eligible_2025 r;
     KeeperRecord.draft_rank_2025 := KeeperRecord.draft_rank_2025 r;
     KeeperRecord.position_rank_2025 := KeeperRecord.position_rank_2025 r;
     KeeperRecord.projected_draft_round_2025 :=
       KeeperRecord.projected_draft_round_2025 r;
     KeeperRecord.keeper_round_2025 := KeeperRecord.keeper_round_2025 r;
     KeeperRecord.waiver_pickup := KeeperRecord.waiver_pickup r |}.

(** A pick can be printed when it has its round, its overall pick and a
    team of its id. *)
Definition printable (draft_data : DraftData.t) (pick : DraftPick.t) : Prop :=
  is_Some (DraftPick.round pick) ∧ is_Some (DraftPick.overall_pick pick) ∧
  ∃ team, team ∈ DraftData.teams draft_data ∧
          Team.team_id team = DraftPick.team_id pick.

(** ** A small league, used to run the definitions *)

Module Example.

Definition info : DraftInfo.t := DraftInfo.mk 12 16 "snake".

Definition teams : list Team.t :=
  [ Team.mk 1 "Gridiron Gang" "Avery" 1 912 "Platinum";
    Team.mk 2 "End Zone Club" "Blake" 2 845 "Gold" ].

Definition pick (name : string) (team : Z) (drafting_team : string)
    (round overall : option Z) (keeper : bool) (waiver : option bool)
    : DraftPick.t :=
  DraftPick.mk name team drafting_team round overall keeper None waiver.

Definition bijan_pick : DraftPick.t :=
  pick "Bijan Robinson" 1 "Gridiron Gang" (Some 1) (Some 3) false None.
Definition kyren_pick : DraftPick.t :=
  pick "Kyren Williams" 2 "End Zone Club" (Some 8) (Some 94) false (Some true).
Definition puka_pick : DraftPick.t :=
  pick "Puka Nacua " 1 "Gridiron Gang" (Some 14) (Some 160) true None.
Definition tucker_pick : DraftPick.t :=
  pick "Justin Tucker" 2 "End Zone Club" (Some 15) (Some 170) false None.
Definition mason_pick : DraftPick.t :=
  pick "Jordan Mason" 1 "Gridiron Gang" None (Some 181) false None.
Definition squad_pick : DraftPick.t :=
  pick "Practice Squad Guy" 2 "End Zone Club" (Some 16) (Some 190) false None.

Definition picks : list DraftPick.t :=
  [bijan_pick; kyren_pick; puka_pick; tucker_pick; mason_pick; squad_pick].

(** [puka_pick] with its keeper status negated, and the data with it. *)
Definition puka_released : DraftPick.t :=
  pick "Puka Nacua " 1 "Gridiron Gang" (Some 14) (Some 160) false None.

Definition draft_data_puka_released : DraftData.t :=
  DraftData.mk info teams
    [bijan_pick; kyren_pick; puka_released; tucker_pick; mason_pick; squad_pick].

Definition draft_data : DraftData.t := DraftData.mk info teams picks.

Definition rankings : list RankingRow.t :=
  [ RankingRow.mk "Bijan Robinson" (Some 2) (Some "RB1");
    RankingRow.mk "Kyren Williams" (Some 12) (Some "RB8");
    RankingRow.mk "Puka Nacua" (Some 13) (Some "WR6");
    RankingRow.mk "Jordan Mason" (Some 100) (Some "RB38");
    RankingRow.mk "Justin Tucker" (Some 150) (Some "K1");
    RankingRow.mk "Baltimore Ravens" (Some 160) (Some "DST2") ].

Definition sources : Sources :=
  {| draft_results := Some draft_data; fantasy_pros := Some rankings |}.

(** The result of the transform on [sources]. *)
Definition output : list KeeperRecord.t :=
  Eval vm_compute in default [] (transform sources).

Definition bijan : KeeperRecord.t :=
  KeeperRecord.mk "Bijan Robinson" "Avery" (Some 1) (Some 3) false true
    (Some 2) (Some "RB1") (Some 1) (Some 1) false.

Definition kyren : KeeperRecord.t :=
  KeeperRecord.mk "Kyren Williams" "Blake" (Some 8) (Some 94) false true
    (Some 12) (Some "RB8") (Some 1) (Some 5) true.

Definition puka : KeeperRecord.t :=
  KeeperRecord.mk "Puka Nacua " "Avery" (Some 14) (Some 160) true true
    (Some 13) (Some "WR6") (Some 2) (Some 13) false.

Definition mason : KeeperRecord.t :=
  KeeperRecord.mk "Jordan Mason" "Avery" None (Some 181) false true
    (Some 100) (Some "RB38") (Some 9) None false.

(** A rankings file in which one trimmed name occurs on two rows. *)
Definition josh_pick : DraftPick.t :=
  pick "Josh Allen" 2 "End Zone Club" (Some 3) (Some 27) false None.

Definition josh : DraftRecord.t :=
  DraftRecord.mk "Josh Allen" "Blake" (Some 3) (Some 27) false true false.

Definition rankings_twice : list RankingRow.t :=
  [ RankingRow.mk "Josh Allen" (Some 25) (Some "QB2");
    RankingRow.mk "Bijan Robinson" (Some 2) (Some "RB1");
    RankingRow.mk "Josh Allen " (Some 210) (Some "LB7") ].

Definition sources_twice : Sources :=
  {| draft_results := Some (DraftData.mk info teams [josh_pick]);
     fantasy_pros := Some rankings_twice |}.

(** A league none of whose picks is ranked, and sources that cannot be read. *)
Definition sources_unranked : Sources :=
  {| draft_results := Some (DraftData.mk info teams [josh_pick]);
     fantasy_pros := Some [RankingRow.mk "Bijan Robinson" (Some 2) (Some "RB1")] |}.

Definition sources_missing : Sources :=
  {| draft_results := None; fantasy_pros := None |}.

(** A draft whose only pick has no round and is not a waiver pickup. *)
Definition draft_data_mason : DraftData.t := DraftData.mk info teams [mason_pick].

Definition sources_mason : Sources :=
  {| draft_results := Some draft_data_mason; fantasy_pros := Some rankings |}.

(** A draft whose only pick is a keeper of a team that is not in the file. *)
Definition ghost_pick : DraftPick.t :=
  pick "Ghost Runner" 9 "Nowhere FC" (Some 2) (Some 14) true None.

Definition draft_data_orphan : DraftData.t := DraftData.mk info teams [ghost_pick].

(** The ranking row of Puka Nacua in [rankings]. *)
Definition puka_ranking : RankingRow.t :=
  RankingRow.mk "Puka Nacua" (Some 13) (Some "WR6").

(** The two teams of [teams], and a draft all of whose picks have their
    round, overall pick and team. *)
Definition gridiron : Team.t := Team.mk 1 "Gridiron Gang" "Avery" 1 912 "Platinum".
Definition end_zone : Team.t := Team.mk 2 "End Zone Club" "Blake" 2 845 "Gold".

Definition draft_data_complete : DraftData.t :=
  DraftData.mk info teams [bijan_pick; kyren_pick; puka_pick; tucker_pick].

End Example.

(** * Properties *)

(** ** The stable sort *)

Section stable_sort_facts.
Context {A K : Type} (leb : K → K → bool) (key : A → K).

Lemma insert_sorted_perm x l : pd.insert_sorted leb key x l ≡ₚ x :: l.
Proof.
  induction l as [|y l IH]; simpl; [done|].
  destruct (leb (key x) (key y)); [done|].
  rewrite IH. apply Permutation_swap.
Qed.

Lemma stable_sort_perm l : pd.stable_sort leb key l ≡ₚ l.
Proof.
  induction l as [|x l IH]; simpl; [done|].
  by rewrite insert_sorted_perm, IH.
Qed.

Lemma stable_sort_length l : length (pd.stable_sort leb key l) = length l.
Proof. apply Permutation_length, stable_sort_perm. Qed.

(** Rows selected by a predicate whose members are all tied keep their
    frame order. *)
Lemma insert_sorted_filter (P : A → Prop) `{!∀ x, Decision (P x)} x l :
  (∀ y, P x → P y → pd.key_le leb key x y) →
  filter P (pd.insert_sorted leb key x l) = filter P (x :: l).
Proof.
  intros Htie. induction l as [|y l IH]; simpl; [done|].
  destruct (leb (key x) (key y)) eqn:Hxy; [done|].
  rewrite filter_cons, IH, !filter_cons.
  destruct (decide (P y)) as [Hy|]; [|done].
  destruct (decide (P x)) as [Hx|]; [|done].
  specialize (Htie y Hx Hy). unfold pd.key_le in Htie. congruence.
Qed.

Lemma stable_sort_filter (P : A → Prop) `{!∀ x, Decision (P x)} l :
  (∀ x y, P x → P y → pd.key_le leb key x y) →
  filter P (pd.stable_sort leb key l) = filter P l.
Proof.
  intros Htie. induction l as [|x l IH]; simpl; [done|].
  rewrite insert_sorted_filter by eauto.
  by rewrite !filter_cons, IH.
Qed.

Hypothesis leb_total : ∀ a b, leb a b = true ∨ leb b a = true.
Hypothesis leb_trans : ∀ a b c, leb a b = true → leb b c = true → leb a c = true.

Lemma insert_sorted_sorted x l :
  StronglySorted (pd.key_le leb key) l →
  StronglySorted (pd.key_le leb key) (pd.insert_sorted leb key x l).
Proof.
  induction 1 as [|y l Hl IH Hy]; simpl.
  - repeat constructor.
  - destruct (leb (key x) (key y)) eqn:Hxy.
    + constructor; [by constructor|].
      constructor; [done|].
      eapply Forall_impl; [exact Hy|]. intros z Hz. unfold pd.key_le in *. eauto.
    + constructor; [done|].
      rewrite insert_sorted_perm. constructor; [|done].
      unfold pd.key_le. destruct (leb_total (key x) (key y)); congruence.
Qed.

Lemma stable_sort_sorted l :
  StronglySorted (pd.key_le leb key) (pd.stable_sort leb key l).
Proof.
  induction l as [|x l IH]; simpl; [constructor|].
  by apply insert_sorted_sorted.
Qed.

(** Cutting a sorted permutation after [n] rows leaves behind only rows
    that are not before any row kept, and leaves some behind only when [n]
    rows are kept. *)
Lemma take_sorted_top n l :
  ∃ rest, take n (pd.stable_sort leb key l) ++ rest ≡ₚ l ∧
          (rest ≠ [] → length (take n (pd.stable_sort leb key l)) = n) ∧
          ∀ a b, a ∈ take n (pd.stable_sort leb key l) → b ∈ rest →
                 pd.key_le leb key a b.
Proof.
  exists (drop n (pd.stable_sort leb key l)). split_and!.
  - by rewrite take_drop, stable_sort_perm.
  - intros Hrest. rewrite length_take.
    destruct (decide (n ≤ length (pd.stable_sort leb key l))%nat); [lia|].
    rewrite drop_ge in Hrest by lia. done.
  - intros a b Ha Hb.
    eapply (StronglySorted_app_1_elem_of (pd.key_le leb key)); [|exact Ha|exact Hb].
    rewrite take_drop. apply stable_sort_sorted.
Qed.
End stable_sort_facts.

Lemma asc_leb_total a b : pd.asc_leb a b = true ∨ pd.asc_leb b a = true.
Proof. destruct a, b; simpl; auto. rewrite !Z.leb_le. lia. Qed.

Lemma asc_leb_trans a b c :
  pd.asc_leb a b = true → pd.asc_leb b c = true → pd.asc_leb a c = true.
Proof. destruct a, b, c; simpl; auto; try done. rewrite !Z.leb_le. lia. Qed.

Lemma desc_leb_total a b : pd.desc_leb a b = true ∨ pd.desc_leb b a = true.
Proof. destruct a, b; simpl; auto. rewrite !Z.leb_le. lia. Qed.

Lemma desc_leb_trans a b c :
  pd.desc_leb a b = true → pd.desc_leb b c = true → pd.desc_leb a c = true.
Proof. destruct a, b, c; simpl; auto; try done. rewrite !Z.leb_le. lia. Qed.


Lemma StronglySorted_lookup_lt {A} (R : A → A → Prop) (l : list A) i j a b :
  StronglySorted R l → (i < j)%nat → l !! i = Some a → l !! j = Some b → R a b.
Proof.
  intros Hl. revert i j. induction Hl as [|x l Hl IH Hx]; intros i j Hij Hi Hj.
  - by rewrite lookup_nil in Hi.
  - destruct j as [|j]; [lia|]. destruct i as [|i]; simpl in *.
    + injection Hi as <-. rewrite Forall_forall in Hx.
      apply Hx. by eapply list_elem_of_lookup_2.
    + apply (IH i j); [lia|done..].
Qed.

(** ** Strings *)

Lemma startswith_append pre s :
  Str.startswith pre s = true ↔ ∃ rest, s = pre +:+ rest.
Proof.
  unfold Str.startswith. revert s. induction pre as [|c pre IH]; intros s; simpl.
  - split; [intros _; by exists s|by destruct s].
  - destruct s as [|c' s]; simpl.
    + split; [done|intros [rest Hrest]; done].
    + destruct (ascii_dec c c') as [->|Hc].
      * rewrite IH. split.
        -- intros [rest ->]. by exists rest.
        -- intros [rest [= ->]]. by exists rest.
      * split; [done|]. intros [rest [= Hcc _]]. done.
Qed.

(** ** The transform *)

(** Every row of the result is a merged row with its derived columns that
    passed both filters. *)
Lemma transform_row src rows r :
  transform src = Some rows → r ∈ rows →
  ∃ row, r = final_columns row ∧ kicker_or_defense r = false ∧
         pd.notna (KeeperRecord.draft_rank_2025 r) = true.
Proof.
  unfold transform, keeper_analysis_dataframe.
  destruct (draft_results src) as [draft_data|]; [|done].
  destruct (fantasy_pros src) as [fantasy_df|]; [|done].
  destruct (draft_record _ <$> _) as [|d ds]; [done|].
  intros [= <-]. unfold pd.sort_values. rewrite stable_sort_perm.
  rewrite !list_elem_of_filter, list_elem_of_fmap.
  intros (Hrank & Hpos & row & -> & _). eauto.
Qed.

Lemma transform_sorted src rows :
  transform src = Some rows →
  StronglySorted (pd.key_le pd.asc_leb KeeperRecord.overall_pick_2024) rows.
Proof.
  unfold transform, keeper_analysis_dataframe.
  destruct (draft_results src) as [draft_data|]; [|done].
  destruct (fantasy_pros src) as [fantasy_df|]; [|done].
  destruct (draft_record _ <$> _) as [|d ds]; [done|].
  intros [= <-]. apply stable_sort_sorted; [apply asc_leb_total|apply asc_leb_trans].
Qed.

Lemma ceil_div_12_spec x k : ceil_div x 12 = k ↔ 12 * (k - 1) < x ≤ 12 * k.
Proof.
  unfold ceil_div. split.
  - intros <-. pose proof (Z.div_mod (- x) 12 ltac:(lia)).
    pose proof (Z.mod_pos_bound (- x) 12 ltac:(lia)). lia.
  - intros Hk. symmetry. apply Z.opp_inj. rewrite Z.opp_involutive.
    apply (Z.div_unique_pos (- x) 12 (- k) (12 * k - x)); lia.
Qed.

(** The scenarios of the specification, run on the definitions. *)
Example keeper_round_floor_clamp :
  calculate_keeper_round
    (Merged.mk (DraftRecord.mk "A" "M" (Some 1) (Some 1) false true false)
               "A" None None)
  = Some 1.
Proof. reflexivity. Qed.

Example keeper_round_waiver_overrides :
  calculate_keeper_round
    (Merged.mk (DraftRecord.mk "A" "M" (Some 8) (Some 90) false true true)
               "A" None None)
  = Some 5.
Proof. reflexivity. Qed.

Example projected_round_of_rank_13_and_12 :
  projected_draft_round (Some 13) = Some 2 ∧ projected_draft_round (Some 12) = Some 1.
Proof. split; reflexivity. Qed.

Example unranked_pick_absent_from_output :
  "Practice Squad Guy" ∉ KeeperRecord.player_name <$> Example.output.
Proof.
  unfold Example.output; simpl.
  rewrite !not_elem_of_cons. split_and!; (done || apply not_elem_of_nil).
Qed.

(** C1: in every row of the transform's output the keeper round follows the
    case analysis of the source, in priority order: 5 for a waiver pickup
    whatever the other fields; otherwise [max(1, draft_round - 1)] when the
    2024 draft round is present; otherwise null. *)
Theorem keeper_round_case_analysis src rows r :
  transform src = Some rows → r ∈ rows →
  (KeeperRecord.waiver_pickup r = true →
     KeeperRecord.keeper_round_2025 r = Some 5) ∧
  (KeeperRecord.waiver_pickup r = false →
     ∀ draft_round, KeeperRecord.draft_round_2024 r = Some draft_round →
       KeeperRecord.keeper_round_2025 r = Some (Z.max 1 (draft_round - 1))) ∧
  (KeeperRecord.waiver_pickup r = false →
     KeeperRecord.draft_round_2024 r = None →
       KeeperRecord.keeper_round_2025 r = None).
Proof.
  intros Hsrc Hr. destruct (transform_row _ _ _ Hsrc Hr) as (row & -> & _).
  unfold final_columns, calculate_keeper_round, Merged.waiver_pickup,
    Merged.draft_round_2024; simpl.
  destruct (DraftRecord.waiver_pickup _), (DraftRecord.draft_round_2024 _);
    repeat split; intros; simplify_eq; done.
Qed.

(** C2: in every row of the transform's output the projected round is the
    ceiling of the 2025 rank over 12, the least [k] with [rank <= 12 k], when
    the rank is present, and null otherwise; rank 13 gives round 2 and rank
    12 gives round 1. *)
Theorem projected_round_is_ceiling src rows r :
  transform src = Some rows → r ∈ rows →
  match KeeperRecord.draft_rank_2025 r with
  | Some rank =>
      ∃ k, KeeperRecord.projected_draft_round_2025 r = Some k ∧
           12 * (k - 1) < rank ≤ 12 * k ∧
           (rank = 13 → k = 2) ∧ (rank = 12 → k = 1)
  | None => KeeperRecord.projected_draft_round_2025 r = None
  end.
Proof.
  intros Hsrc Hr. destruct (transform_row _ _ _ Hsrc Hr) as (row & -> & _).
  unfold final_columns, projected_draft_round; simpl.
  destruct (Merged.draft_rank_2025 row) as [rank|]; [|done].
  exists (ceil_div rank 12). split; [done|].
  pose proof (proj1 (ceil_div_12_spec rank _) eq_refl). lia.
Qed.

(** C5: no row of the transform's output has a position rank that begins
    with "K" or with "DST", and every row has a 2025 draft rank. *)
Theorem output_excludes_kickers_defenses_unranked src rows r :
  transform src = Some rows → r ∈ rows →
  (∀ position, KeeperRecord.position_rank_2025 r = Some position →
     ∀ rest, position ≠ "K" +:+ rest ∧ position ≠ "DST" +:+ rest) ∧
  (∃ rank, KeeperRecord.draft_rank_2025 r = Some rank).
Proof.
  intros Hsrc Hr.
  destruct (transform_row _ _ _ Hsrc Hr) as (row & _ & Hkd & Hrank). split.
  - intros position Hpos rest.
    unfold kicker_or_defense, position_str in Hkd. rewrite Hpos in Hkd; simpl in Hkd.
    apply orb_false_elim in Hkd as [HK HDST].
    split; intros ->.
    + assert (Str.startswith "K" ("K" +:+ rest) = true) as Ht
        by (apply startswith_append; eauto).
      congruence.
    + assert (Str.startswith "DST" ("DST" +:+ rest) = true) as Ht
        by (apply startswith_append; eauto).
      congruence.
  - destruct (KeeperRecord.draft_rank_2025 r); [eauto|done].
Qed.

(** C6: read in output order, the overall picks of the transform's output
    never decrease: of two rows, the later one has a pick at least as large
    (a row without a pick sorts after every row with one). *)
Theorem output_sorted_by_overall_pick src rows i j a b :
  transform src = Some rows → (i < j)%nat →
  rows !! i = Some a → rows !! j = Some b →
  (∀ x y, KeeperRecord.overall_pick_2024 a = Some x →
          KeeperRecord.overall_pick_2024 b = Some y → x ≤ y) ∧
  (KeeperRecord.overall_pick_2024 a = None →
   KeeperRecord.overall_pick_2024 b = None).
Proof.
  intros Hsrc Hij Hi Hj.
  pose proof (StronglySorted_lookup_lt _ _ _ _ _ _
                (transform_sorted _ _ Hsrc) Hij Hi Hj) as Hab.
  unfold pd.key_le, pd.asc_leb in Hab.
  destruct (KeeperRecord.overall_pick_2024 a), (KeeperRecord.overall_pick_2024 b);
    split; intros; simplify_eq; try done.
  by apply Z.leb_le.
Qed.

Lemma example_output : transform Example.sources = Some Example.output.
Proof. vm_compute. reflexivity. Qed.

Lemma example_output_rows :
  Example.output = [Example.bijan; Example.kyren; Example.puka; Example.mason].
Proof. reflexivity. Qed.

(** The waiver pickup of the example league keeps at round 5. *)
Lemma keeper_round_case_analysis_witness :
  transform Example.sources = Some Example.output ∧
  Example.kyren ∈ Example.output ∧
  KeeperRecord.keeper_round_2025 Example.kyren = Some 5.
Proof.
  assert (transform Example.sources = Some Example.output) as Hout
    by (vm_compute; reflexivity).
  assert (Example.kyren ∈ Example.output) as Hin
    by (vm_compute; repeat constructor).
  split; [exact Hout|split; [exact Hin|]].
  exact (proj1 (keeper_round_case_analysis
                  Example.sources Example.output Example.kyren Hout Hin) eq_refl).
Defined.

(** Rank 13 of the example league projects to round 2. *)
Lemma projected_round_is_ceiling_witness :
  ∃ k, KeeperRecord.projected_draft_round_2025 Example.puka = Some k ∧
       12 * (k - 1) < 13 ≤ 12 * k ∧ (13 = 13 → k = 2) ∧ (13 = 12 → k = 1).
Proof.
  apply (projected_round_is_ceiling Example.sources Example.output Example.puka);
    [vm_compute; reflexivity|vm_compute; repeat constructor].
Defined.

(** A running back of the example league passes both filters. *)
Lemma output_excludes_kickers_defenses_unranked_witness :
  (∀ position, KeeperRecord.position_rank_2025 Example.bijan = Some position →
     ∀ rest, position ≠ "K" +:+ rest ∧ position ≠ "DST" +:+ rest) ∧
  (∃ rank, KeeperRecord.draft_rank_2025 Example.bijan = Some rank).
Proof.
  apply (output_excludes_kickers_defenses_unranked
           Example.sources Example.output Example.bijan);
    [vm_compute; reflexivity|vm_compute; repeat constructor].
Defined.

(** Picks 3 and 160 of the example league, first and third in the output. *)
Lemma output_sorted_by_overall_pick_witness :
  (∀ x y, KeeperRecord.overall_pick_2024 Example.bijan = Some x →
          KeeperRecord.overall_pick_2024 Example.puka = Some y → x ≤ y) ∧
  (KeeperRecord.overall_pick_2024 Example.bijan = None →
   KeeperRecord.overall_pick_2024 Example.puka = None).
Proof.
  apply (output_sorted_by_overall_pick Example.sources Example.output 0 2);
    [vm_compute; reflexivity|lia|reflexivity|reflexivity].
Defined.

(** ** The left join *)

Lemma merge_app draft1 draft2 fantasy_df :
  merge (draft1 ++ draft2) fantasy_df
  = merge draft1 fantasy_df ++ merge draft2 fantasy_df.
Proof. unfold merge, pd.merge_left. by rewrite bind_app, fmap_app. Qed.

Lemma merge_singleton d fantasy_df :
  merge [d] fantasy_df =
  match partners d fantasy_df with
  | [] => [Merged.mk d (clean_draft d) None None]
  | rows =>
      (λ r, Merged.mk d (clean_draft d) (RankingRow.draft_rank_2025 r)
                      (RankingRow.position_rank_2025 r)) <$> rows
  end.
Proof.
  unfold merge, pd.merge_left, partners. rewrite bind_cons, app_nil_r.
  destruct (filter _ fantasy_df) as [|r rs]; [done|].
  by rewrite <- list_fmap_compose.
Qed.

(** C4, as the code has it: the joined set lists the draft picks in order;
    a pick stands in it once for every ranking row that carries its trimmed
    name, with that row's rank and position, and exactly once, with null
    ranking fields, when no ranking row does.  So a pick appears exactly once
    when at most one ranking row carries its name. *)
Theorem left_join_rows_per_pick before d after fantasy_df :
  ∃ rows,
    merge (before ++ d :: after) fantasy_df
    = merge before fantasy_df ++ rows ++ merge after fantasy_df ∧
    Forall (λ row, Merged.draft row = d) rows ∧
    length rows = Nat.max 1 (length (partners d fantasy_df)) ∧
    ((length (partners d fantasy_df) ≤ 1)%nat → length rows = 1%nat) ∧
    (partners d fantasy_df = [] →
       rows = [Merged.mk d (clean_draft d) None None]) ∧
    (partners d fantasy_df ≠ [] →
       (λ row, (Merged.draft_rank_2025 row, Merged.position_rank_2025 row)) <$> rows
       = (λ r, (RankingRow.draft_rank_2025 r, RankingRow.position_rank_2025 r))
           <$> partners d fantasy_df).
Proof.
  exists (merge [d] fantasy_df). split.
  { by rewrite (merge_app before (d :: after)), (merge_app [d] after). }
  rewrite merge_singleton.
  destruct (partners d fantasy_df) as [|r rs].
  - split_and!; try done. by repeat constructor.
  - split_and!; try done.
    + by apply Forall_fmap, Forall_true.
    + rewrite length_fmap. simpl. lia.
    + rewrite length_fmap. simpl. lia.
    + intros _. by rewrite <- list_fmap_compose.
Qed.

(** C4, as stated, fails: with two ranking rows of one trimmed name the one
    draft pick is joined twice, and both rows reach the output of the
    transform. *)
Lemma left_join_duplicates_pick :
  draft_record (team_to_manager Example.teams) Example.josh_pick = Example.josh ∧
  Merged.draft <$> merge [Example.josh] Example.rankings_twice
  = [Example.josh; Example.josh] ∧
  Merged.draft_rank_2025 <$> merge [Example.josh] Example.rankings_twice
  = [Some 25; Some 210] ∧
  (λ r, (KeeperRecord.player_name r, KeeperRecord.overall_pick_2024 r))
    <$> default [] (transform Example.sources_twice)
  = [("Josh Allen", Some 27); ("Josh Allen", Some 27)].
Proof. split_and!; vm_compute; reflexivity. Qed.

(** ** The recommendation selector *)

Section nlargest_facts.
Context {A : Type} (col : A → option Z).


Lemma nlargest_sorted n df :
  StronglySorted (pd.key_le pd.desc_leb col) (pd.largest_rows n col df).
Proof.
  unfold pd.largest_rows.
  apply (StronglySorted_app_1_l _ _ (drop n (pd.stable_sort pd.desc_leb col df))).
  rewrite take_drop.
  apply stable_sort_sorted; [apply desc_leb_total|apply desc_leb_trans].
Qed.

Lemma nlargest_top n df :
  ∃ rest, pd.largest_rows n col df ++ rest ≡ₚ df ∧
          (rest ≠ [] → length (pd.largest_rows n col df) = n) ∧
          ∀ a b, a ∈ pd.largest_rows n col df → b ∈ rest →
                 pd.desc_leb (col a) (col b) = true.
Proof.
  apply (take_sorted_top pd.desc_leb col);
    [apply desc_leb_total|apply desc_leb_trans].
Qed.


Lemma nlargest_all n df :
  (length df ≤ n)%nat → pd.largest_rows n col df ≡ₚ df.
Proof.
  intros Hn. unfold pd.largest_rows.
  rewrite firstn_all2 by (by rewrite stable_sort_length).
  apply stable_sort_perm.
Qed.
End nlargest_facts.

Lemma recommendations_nlargest df manager :
  recommendations (keeper_recommendations pd.numeric df manager)
  = pd.largest_rows 5 Recommendation.keeper_value
      (with_keeper_value <$> filter (eligible_for manager) df).
Proof.
  unfold keeper_recommendations. destruct df as [|r df]; [done|].
  by destruct (filter _ (r :: df)).
Qed.



Lemma api_keeper_recommendations_numeric src manager :
  Api.keeper_round_dtype src = pd.numeric →
  recommendations (api_keeper_recommendations src manager)
  = pd.largest_rows 5 Recommendation.keeper_value
      (with_keeper_value
         <$> filter (eligible_for manager) (Api.create_keeper_analysis_dataframe src)).
Proof.
  intros Hnum. unfold api_keeper_recommendations. rewrite Hnum.
  apply recommendations_nlargest.
Qed.

(** C3, where the code departs from it: in this draft the one pick has no
    round and is not a waiver pickup, so no row of the merged frame has a
    keeper round and pandas gives the keeper-round column the dtype object.
    The transform succeeds and Avery has one eligible row, but [nlargest]
    raises on the [keeper_value] column and the selector answers with the
    internal-server error and no row, where the top 5 rows by
    [keeper_value] are that one row. *)
Theorem selector_fails_without_keeper_rounds :
  transform Example.sources_mason = Some [Example.mason] ∧
  filter (eligible_for "Avery")
    (Api.create_keeper_analysis_dataframe Example.sources_mason)
  = [Example.mason] ∧
  with_keeper_value Example.mason = Recommendation.mk Example.mason None ∧
  Api.keeper_round_dtype Example.sources_mason = pd.object ∧
  api_keeper_recommendations Example.sources_mason "Avery" = InternalServerError ∧
  status (api_keeper_recommendations Example.sources_mason "Avery") = error ∧
  recommendations (api_keeper_recommendations Example.sources_mason "Avery") = [].
Proof. split_and!; vm_compute; reflexivity. Qed.

Lemma api_output_row src r :
  r ∈ Api.create_keeper_analysis_dataframe src →
  ∃ rows, transform src = Some rows ∧ r ∈ rows.
Proof.
  unfold Api.create_keeper_analysis_dataframe.
  destruct (transform src) as [rows|]; simpl; [eauto|].
  by intros ?%not_elem_of_nil.
Qed.

(** C7, as the code has it: when the transform succeeds with at least one
    row and the manager has no eligible row, the selector answers with the
    success status and an empty list of recommendations, an answer that
    differs from the data-unavailable failure returned whenever the
    transform fails; when the transform succeeds with no row at all, the
    selector answers with that same failure. *)
Theorem no_eligible_keepers_answer src rows manager :
  transform src = Some rows →
  filter (eligible_for manager) rows = [] →
  (rows ≠ [] →
     api_keeper_recommendations src manager = NoEligibleKeepers manager ∧
     status (api_keeper_recommendations src manager) = success ∧
     recommendations (api_keeper_recommendations src manager) = [] ∧
     ∀ src', transform src' = None →
       api_keeper_recommendations src' manager = NoDataAvailable ∧
       status (api_keeper_recommendations src' manager) = error ∧
       api_keeper_recommendations src' manager
       ≠ api_keeper_recommendations src manager) ∧
  (rows = [] → api_keeper_recommendations src manager = NoDataAvailable).
Proof.
  intros Hsrc Hnone.
  unfold api_keeper_recommendations, Api.create_keeper_analysis_dataframe.
  rewrite Hsrc; simpl. split.
  - intros Hrows. unfold keeper_recommendations. rewrite Hnone.
    destruct rows as [|r rows]; [done|].
    split_and!; try done.
    intros src' ->. simpl. done.
  - by intros ->.
Qed.

(** A manager who drafted nobody in the example league. *)
Lemma no_eligible_keepers_answer_witness :
  transform Example.sources = Some Example.output ∧
  filter (eligible_for "Casey") Example.output = [] ∧
  api_keeper_recommendations Example.sources "Casey" = NoEligibleKeepers "Casey".
Proof.
  assert (transform Example.sources = Some Example.output) as Hout
    by (vm_compute; reflexivity).
  assert (filter (eligible_for "Casey") Example.output = []) as Hnone
    by (vm_compute; reflexivity).
  assert (Example.output ≠ []) as Hne by (vm_compute; discriminate).
  split; [exact Hout|split; [exact Hnone|]].
  exact (proj1 (proj1 (no_eligible_keepers_answer
                         Example.sources Example.output "Casey" Hout Hnone) Hne)).
Defined.

(** C7, as stated, fails: the transform succeeds on these sources, with an
    output of no rows (the one pick has no ranking), so the manager has no
    eligible row; the selector answers with the error status, the very
    answer it gives when the sources cannot be read. *)
Lemma empty_output_reported_as_failure :
  transform Example.sources_unranked = Some [] ∧
  filter (eligible_for "Blake") (Api.create_keeper_analysis_dataframe
                                   Example.sources_unranked) = [] ∧
  api_keeper_recommendations Example.sources_unranked "Blake" = NoDataAvailable ∧
  status (api_keeper_recommendations Example.sources_unranked "Blake") = error ∧
  transform Example.sources_missing = None ∧
  api_keeper_recommendations Example.sources_missing "Blake"
  = api_keeper_recommendations Example.sources_unranked "Blake".
Proof. split_and!; vm_compute; reflexivity. Qed.

Lemma desc_leb_null b : pd.desc_leb None b = true → b = None.
Proof. by destruct b. Qed.

(** C10, as the code has it: an eligible row of the manager has a null
    [keeper_value] exactly when its keeper round is null, that is when it has
    no 2024 draft round and is not a waiver pickup.  When some row of the
    merged frame has a keeper round, so that the keeper-round column is
    numeric, such a row is not left out for that: it ranks after every row
    with a value.  All eligible rows are returned when there are at most 5,
    rows are left out only when 5 are returned, and when a row of null value
    is returned every row left out has a null value too. *)
Theorem null_keeper_value_ranks_last src manager :
  let candidates :=
    with_keeper_value
      <$> filter (eligible_for manager) (Api.create_keeper_analysis_dataframe src) in
  let recs := recommendations (api_keeper_recommendations src manager) in
  (∀ c, c ∈ candidates →
     (Recommendation.keeper_value c = None ↔
      KeeperRecord.keeper_round_2025 (Recommendation.row c) = None) ∧
     (KeeperRecord.keeper_round_2025 (Recommendation.row c) = None ↔
      KeeperRecord.waiver_pickup (Recommendation.row c) = false ∧
      KeeperRecord.draft_round_2024 (Recommendation.row c) = None)) ∧
  (Api.keeper_round_dtype src = pd.numeric →
   (∀ i j a b, (i < j)%nat → recs !! i = Some a → recs !! j = Some b →
      Recommendation.keeper_value a = None → Recommendation.keeper_value b = None) ∧
   ((length candidates ≤ 5)%nat → recs ≡ₚ candidates) ∧
   (∃ rest, recs ++ rest ≡ₚ candidates ∧
      (rest ≠ [] → length recs = 5%nat) ∧
      ∀ a b, a ∈ recs → b ∈ rest →
        Recommendation.keeper_value a = None → Recommendation.keeper_value b = None)).
Proof.
  intros candidates recs. split.
  - intros c Hc. unfold candidates in Hc.
    apply list_elem_of_fmap in Hc as (r & -> & Hr).
    apply list_elem_of_filter in Hr as [_ Hr].
    apply api_output_row in Hr as (rows & Hsrc & Hr).
    destruct (transform_row _ _ _ Hsrc Hr) as (row & -> & _ & Hrank).
    unfold with_keeper_value, final_columns, projected_draft_round,
      calculate_keeper_round, Merged.waiver_pickup, Merged.draft_round_2024
      in *; simpl in *.
    destruct (Merged.draft_rank_2025 row); [|done].
    destruct (DraftRecord.waiver_pickup _), (DraftRecord.draft_round_2024 _);
      simpl; split; split; (done || by intros []).
  - intros Hnum. subst recs.
    rewrite (api_keeper_recommendations_numeric _ _ Hnum). fold candidates.
    split_and!.
    + intros i j a b Hij Ha Hb Hnull.
      pose proof (StronglySorted_lookup_lt _ _ _ _ _ _
        (nlargest_sorted Recommendation.keeper_value 5 candidates) Hij Ha Hb) as Hab.
      unfold pd.key_le in Hab. rewrite Hnull in Hab. by apply desc_leb_null.
    + apply nlargest_all.
    + destruct (nlargest_top Recommendation.keeper_value 5 candidates)
        as (rest & Hperm & Hlen & Htop).
      exists rest. split_and!; try done.
      intros a b Ha Hb Hnull. specialize (Htop a b Ha Hb).
      rewrite Hnull in Htop. by apply desc_leb_null.
Qed.

(** In the example league two picks have a round, and Avery has three
    eligible rows: all of them are returned. *)
Lemma null_keeper_value_ranks_last_witness :
  Api.keeper_round_dtype Example.sources = pd.numeric ∧
  (length (with_keeper_value
             <$> filter (eligible_for "Avery")
                   (Api.create_keeper_analysis_dataframe Example.sources)) ≤ 5)%nat ∧
  recommendations (api_keeper_recommendations Example.sources "Avery")
  ≡ₚ with_keeper_value
       <$> filter (eligible_for "Avery")
             (Api.create_keeper_analysis_dataframe Example.sources).
Proof.
  assert (Api.keeper_round_dtype Example.sources = pd.numeric) as Hnum
    by (vm_compute; reflexivity).
  assert (length (with_keeper_value
             <$> filter (eligible_for "Avery")
                   (Api.create_keeper_analysis_dataframe Example.sources)) ≤ 5)%nat
    as Hlen by (vm_compute; lia).
  split; [exact Hnum|]. split; [exact Hlen|].
  exact (proj1 (proj2 (proj2 (null_keeper_value_ranks_last Example.sources "Avery")
                         Hnum)) Hlen).
Defined.

(** C10, as stated, fails: Jordan Mason is an eligible row of Avery with no
    2024 draft round and no waiver pickup, so his keeper round and keeper
    value are null; Avery has two other eligible rows, and the selector
    returns all three, Mason last. *)
Lemma null_keeper_round_row_is_returned :
  api_keeper_recommendations Example.sources "Avery"
  = Recommendations "Avery"
      [ Recommendation.mk Example.bijan (Some 0);
        Recommendation.mk Example.puka (Some (-11));
        Recommendation.mk Example.mason None ] ∧
  KeeperRecord.keeper_round_2025 Example.mason = None ∧
  KeeperRecord.draft_round_2024 Example.mason = None ∧
  KeeperRecord.waiver_pickup Example.mason = false ∧
  filter (eligible_for "Avery") (Api.create_keeper_analysis_dataframe Example.sources)
  = [Example.bijan; Example.puka; Example.mason].
Proof. split_and!; vm_compute; reflexivity. Qed.

(** ** The keeper-status mutator *)

Lemma filter_none {A} (P : A → Prop) `{!∀ x, Decision (P x)} (l : list A) :
  Forall (λ x, ¬ P x) l → filter P l = [].
Proof.
  induction 1 as [|x l Hx _ IH]; [done|].
  by rewrite filter_cons_False.
Qed.

(** Picks that carry one name match the same typed names. *)
Lemma name_matches_same_name player_name pick1 pick2 :
  DraftPick.player_name pick1 = DraftPick.player_name pick2 →
  name_matches player_name pick1 → name_matches player_name pick2.
Proof. unfold name_matches. by intros ->. Qed.

(** The loop reaches the player when no earlier pick matches the name. *)
Lemma set_keeper_status_first player_name player new_status before after :
  name_matches player_name player →
  Forall (λ pick, ¬ name_matches player_name pick) before →
  set_keeper_status player new_status (before ++ player :: after)
  = before ++ with_keeper_status player new_status :: after.
Proof.
  intros Hplayer. induction 1 as [|pick before Hpick _ IH]; simpl.
  - by rewrite decide_True.
  - rewrite decide_False, IH; [done|].
    intros [Hname _]. apply Hpick.
    by apply (name_matches_same_name _ player).
Qed.

(** C8: when the typed name matches exactly one draft pick, the command
    writes the whole draft-results data back with the keeper status of that
    pick negated; the other fields of the pick, the picks before and after
    it, the teams and the draft info are as loaded. *)
Theorem update_keeper_flips_one_pick input draft_data before player after :
  Str.strip input ≠ "" →
  DraftData.draft_picks draft_data = before ++ player :: after →
  name_matches (Str.strip input) player →
  Forall (λ pick, ¬ name_matches (Str.strip input) pick) (before ++ after) →
  let flipped :=
    {| DraftPick.player_name := DraftPick.player_name player;
       DraftPick.team_id := DraftPick.team_id player;
       DraftPick.drafting_team := DraftPick.drafting_team player;
       DraftPick.round := DraftPick.round player;
       DraftPick.overall_pick := DraftPick.overall_pick player;
       DraftPick.keeper_status := negb (DraftPick.keeper_status player);
       DraftPick.keeper_eligible_2025 := DraftPick.keeper_eligible_2025 player;
       DraftPick.waiver_pickup := DraftPick.waiver_pickup player |} in
  let written :=
    {| DraftData.draft_info := DraftData.draft_info draft_data;
       DraftData.teams := DraftData.teams draft_data;
       DraftData.draft_picks := before ++ flipped :: after |} in
  update_keeper input (Some draft_data)
  = (Updated (DraftPick.player_name player) (negb (DraftPick.keeper_status player)),
     Some written) ∧
  stored_after (Some draft_data) (update_keeper input (Some draft_data)).2
  = Some written.
Proof.
  intros Hname Hpicks Hplayer Hothers flipped written.
  apply Forall_app in Hothers as [Hbefore Hafter].
  assert (update_keeper input (Some draft_data)
          = (Updated (DraftPick.player_name player)
                     (negb (DraftPick.keeper_status player)), Some written)) as ->.
  { unfold update_keeper. rewrite decide_False by done.
    rewrite Hpicks, filter_app, filter_cons_True by done.
    rewrite !filter_none by done. simpl.
    by rewrite (set_keeper_status_first (Str.strip input)). }
  done.
Qed.

(** C9: when the typed name matches no draft pick, or more than one, the
    command writes nothing and the stored data stay as they were; it reports
    that no player was found in the first case and the list of the matching
    picks in the second. *)
Theorem update_keeper_without_single_match input draft_data :
  let player_name := Str.strip input in
  let matching_players :=
    filter (name_matches player_name) (DraftData.draft_picks draft_data) in
  player_name ≠ "" →
  length matching_players ≠ 1%nat →
  (update_keeper input (Some draft_data)).2 = None ∧
  stored_after (Some draft_data) (update_keeper input (Some draft_data)).2
  = Some draft_data ∧
  (matching_players = [] →
     (update_keeper input (Some draft_data)).1 = NoPlayerFound player_name) ∧
  ((1 < length matching_players)%nat →
     (update_keeper input (Some draft_data)).1
     = MultiplePlayersFound matching_players).
Proof.
  intros player_name matching_players Hname Hlen.
  unfold update_keeper. fold player_name. rewrite decide_False by done.
  fold matching_players.
  destruct matching_players as [|player others] eqn:Hmatch.
  { split_and!; simpl; try done. lia. }
  destruct others as [|other others]; [done|].
  rewrite decide_True by (simpl; lia).
  split_and!; simpl; done.
Qed.

(** Typing [puka] releases the one keeper whose name contains it. *)
Lemma update_keeper_flips_one_pick_witness :
  Str.strip "  puka " ≠ "" ∧
  update_keeper "  puka " (Some Example.draft_data)
  = (Updated "Puka Nacua " false, Some Example.draft_data_puka_released).
Proof.
  assert (Str.strip "  puka " ≠ "") as Hname by (vm_compute; discriminate).
  split; [exact Hname|].
  refine (proj1 (update_keeper_flips_one_pick "  puka " Example.draft_data
            [Example.bijan_pick; Example.kyren_pick] Example.puka_pick
            [Example.tucker_pick; Example.mason_pick; Example.squad_pick]
            Hname eq_refl _ _)).
  - vm_compute. reflexivity.
  - repeat (constructor; [vm_compute; discriminate|]). constructor.
Defined.

(** [an] is in two names of the example league, [Mahomes] in none. *)
Lemma update_keeper_without_single_match_witness :
  Str.strip "an" ≠ "" ∧
  update_keeper "an" (Some Example.draft_data)
  = (MultiplePlayersFound [Example.bijan_pick; Example.mason_pick], None) ∧
  update_keeper "Mahomes" (Some Example.draft_data)
  = (NoPlayerFound "Mahomes", None).
Proof.
  assert (Str.strip "an" ≠ "") as Hname by (vm_compute; discriminate).
  split; [exact Hname|].
  pose proof (update_keeper_without_single_match "an" Example.draft_data Hname
                ltac:(vm_compute; discriminate)) as (Hw & _ & _ & Hr).
  split; [|vm_compute; reflexivity].
  rewrite (surjective_pairing (update_keeper "an" (Some Example.draft_data))).
  rewrite Hw, Hr by (vm_compute; lia). vm_compute. reflexivity.
Defined.

(** * Further properties of the code *)

(** ** The transform, row by row *)

Lemma keeper_analysis_dataframe_None draft_data fantasy_df :
  DraftData.draft_picks draft_data = [] →
  keeper_analysis_dataframe draft_data fantasy_df = None.
Proof. unfold keeper_analysis_dataframe. by intros ->. Qed.

Lemma keeper_analysis_dataframe_Some draft_data fantasy_df :
  DraftData.draft_picks draft_data ≠ [] →
  keeper_analysis_dataframe draft_data fantasy_df =
  Some (analysis_rows
          (draft_record (team_to_manager (DraftData.teams draft_data))
             <$> DraftData.draft_picks draft_data) fantasy_df).
Proof.
  unfold keeper_analysis_dataframe, analysis_rows.
  by destruct (DraftData.draft_picks draft_data).
Qed.

(** The transform succeeds exactly when both sources are read and the draft
    has a pick; its output is then [analysis_rows]. *)
Lemma transform_Some src rows :
  transform src = Some rows ↔
  ∃ draft_data fantasy_df,
    draft_results src = Some draft_data ∧ fantasy_pros src = Some fantasy_df ∧
    DraftData.draft_picks draft_data ≠ [] ∧
    rows = analysis_rows
             (draft_record (team_to_manager (DraftData.teams draft_data))
                <$> DraftData.draft_picks draft_data) fantasy_df.
Proof.
  unfold transform. split.
  - destruct (draft_results src) as [draft_data|]; [|done].
    destruct (fantasy_pros src) as [fantasy_df|]; [|done].
    destruct (decide (DraftData.draft_picks draft_data = [])) as [Hp|Hp].
    + by rewrite keeper_analysis_dataframe_None.
    + rewrite keeper_analysis_dataframe_Some by done. intros [= <-]. eauto 10.
  - intros (draft_data & fantasy_df & -> & -> & Hp & ->).
    by apply keeper_analysis_dataframe_Some.
Qed.

Lemma elem_of_merge row draft_df fantasy_df :
  row ∈ merge draft_df fantasy_df ↔
  ∃ d, d ∈ draft_df ∧
    (partners d fantasy_df = [] ∧ row = Merged.mk d (clean_draft d) None None ∨
     ∃ r, r ∈ partners d fantasy_df ∧
          row = Merged.mk d (clean_draft d) (RankingRow.draft_rank_2025 r)
                          (RankingRow.position_rank_2025 r)).
Proof.
  split.
  - intros Hrow. induction draft_df as [|d draft_df IH].
    { by apply not_elem_of_nil in Hrow. }
    rewrite (merge_app [d] draft_df) in Hrow.
    apply elem_of_app in Hrow as [Hrow|Hrow].
    + exists d. split; [left|]. rewrite merge_singleton in Hrow.
      destruct (partners d fantasy_df) as [|r rs] eqn:Hp.
      * left. split; [done|]. by apply list_elem_of_singleton in Hrow.
      * right. apply list_elem_of_fmap in Hrow as (r' & -> & Hr'). eauto.
    + destruct (IH Hrow) as (d' & Hd' & H). exists d'. split; [by right|done].
  - intros (d & Hd & H).
    apply list_elem_of_split in Hd as (l1 & l2 & ->).
    rewrite (merge_app l1 (d :: l2)), (merge_app [d] l2), !elem_of_app.
    right; left. rewrite merge_singleton.
    destruct H as [[-> ->]|(r & Hr & ->)]; [by left|].
    destruct (partners d fantasy_df) as [|r0 rs] eqn:Hp.
    { by apply not_elem_of_nil in Hr. }
    apply list_elem_of_fmap. eauto.
Qed.

Lemma elem_of_analysis_rows r draft_records fantasy_df :
  r ∈ analysis_rows draft_records fantasy_df ↔
  kicker_or_defense r = false ∧ pd.notna (KeeperRecord.draft_rank_2025 r) = true ∧
  ∃ row, row ∈ merge draft_records fantasy_df ∧ r = final_columns row.
Proof.
  unfold analysis_rows, pd.sort_values. rewrite stable_sort_perm.
  rewrite !list_elem_of_filter, list_elem_of_fmap. split.
  - intros (Hrank & Hkd & row & -> & Hrow). eauto.
  - intros (Hkd & Hrank & row & Hrow & ->). eauto.
Qed.

(** X1: every row of the transform's output stems from one draft pick and
    one ranking row with the same trimmed player name: it shows the player
    name as the draft file spells it, the round, pick, keeper status of that
    pick, and the rank and position of that ranking row. *)
Theorem output_row_provenance src rows r :
  transform src = Some rows → r ∈ rows →
  ∃ draft_data fantasy_df pick ranking,
    draft_results src = Some draft_data ∧ fantasy_pros src = Some fantasy_df ∧
    pick ∈ DraftData.draft_picks draft_data ∧ ranking ∈ fantasy_df ∧
    Str.strip (RankingRow.player_name ranking)
    = Str.strip (DraftPick.player_name pick) ∧
    KeeperRecord.player_name r = DraftPick.player_name pick ∧
    KeeperRecord.draft_round_2024 r = DraftPick.round pick ∧
    KeeperRecord.overall_pick_2024 r = DraftPick.overall_pick pick ∧
    KeeperRecord.keeper_status_2024 r = DraftPick.keeper_status pick ∧
    KeeperRecord.draft_rank_2025 r = RankingRow.draft_rank_2025 ranking ∧
    KeeperRecord.position_rank_2025 r = RankingRow.position_rank_2025 ranking.
Proof.
  intros (draft_data & fantasy_df & Hdraft & Hf & _ & ->)%transform_Some Hr.
  apply elem_of_analysis_rows in Hr as (_ & Hrank & row & Hrow & ->).
  apply elem_of_merge in Hrow as (d & Hd & Hcase).
  apply list_elem_of_fmap in Hd as (pick & -> & Hpick).
  destruct Hcase as [[_ ->]|(ranking & Hranking & ->)]; [done|].
  apply list_elem_of_filter in Hranking as [Hname Hranking].
  exists draft_data, fantasy_df, pick, ranking. by split_and!.
Qed.

(** X2: a draft pick whose trimmed name is on a ranking row with a rank, and
    with a position that begins neither with "K" nor with "DST" (or no
    position at all), is in the output of the transform, with that rank and
    position; the transform does not fail on such sources. *)
Theorem ranked_pick_in_output src draft_data fantasy_df pick ranking rank :
  draft_results src = Some draft_data → fantasy_pros src = Some fantasy_df →
  pick ∈ DraftData.draft_picks draft_data → ranking ∈ fantasy_df →
  Str.strip (RankingRow.player_name ranking)
  = Str.strip (DraftPick.player_name pick) →
  RankingRow.draft_rank_2025 ranking = Some rank →
  (∀ position, RankingRow.position_rank_2025 ranking = Some position →
     Str.startswith "K" position = false ∧ Str.startswith "DST" position = false) →
  ∃ rows r,
    transform src = Some rows ∧ r ∈ rows ∧
    KeeperRecord.player_name r = DraftPick.player_name pick ∧
    KeeperRecord.overall_pick_2024 r = DraftPick.overall_pick pick ∧
    KeeperRecord.draft_rank_2025 r = Some rank ∧
    KeeperRecord.position_rank_2025 r = RankingRow.position_rank_2025 ranking.
Proof.
  intros Hd Hf Hpick Hranking Hname Hrank Hpos.
  assert (DraftData.draft_picks draft_data ≠ []) as Hpicks.
  { intros Hnil. rewrite Hnil in Hpick. by apply not_elem_of_nil in Hpick. }
  unfold transform. rewrite Hd, Hf, keeper_analysis_dataframe_Some by done.
  set (d := draft_record (team_to_manager (DraftData.teams draft_data)) pick).
  set (row := Merged.mk d (clean_draft d) (RankingRow.draft_rank_2025 ranking)
                        (RankingRow.position_rank_2025 ranking)).
  eexists _, (final_columns row). split; [done|]. split; [|by split_and!].
  apply elem_of_analysis_rows. split_and!.
  - unfold kicker_or_defense, position_str; simpl.
    destruct (RankingRow.position_rank_2025 ranking) as [position|]; simpl; [|done].
    destruct (Hpos position eq_refl) as [-> ->]. done.
  - simpl. by rewrite Hrank.
  - exists row. split; [|done]. apply elem_of_merge.
    exists d. split; [apply list_elem_of_fmap; eauto|].
    right. exists ranking. split; [|done].
    apply list_elem_of_filter. done.
Qed.

Lemma partners_unique d fantasy_df :
  NoDup (clean_ranking <$> fantasy_df) → (length (partners d fantasy_df) ≤ 1)%nat.
Proof.
  unfold partners. induction fantasy_df as [|r rs IH]; simpl; [lia|].
  rewrite NoDup_cons. intros [Hr Hrs]. rewrite filter_cons.
  destruct (decide (clean_ranking r = clean_draft d)) as [Heq|]; [|by apply IH].
  rewrite filter_none; [simpl; lia|].
  apply Forall_forall. intros r' Hr' Heq'. apply Hr.
  rewrite Heq, <- Heq'. apply list_elem_of_fmap. eauto.
Qed.

Lemma merge_drafts_unique draft_df fantasy_df :
  NoDup (clean_ranking <$> fantasy_df) →
  Merged.draft <$> merge draft_df fantasy_df = draft_df.
Proof.
  intros Hnodup. induction draft_df as [|d draft_df IH]; [done|].
  rewrite (merge_app [d] draft_df), fmap_app, IH, merge_singleton.
  pose proof (partners_unique d fantasy_df Hnodup) as Hlen.
  destruct (partners d fantasy_df) as [|r [|r' rs]]; simpl in *; [done..|lia].
Qed.

(** X3: when no two ranking rows share a trimmed player name, every draft
    pick is in the output of the transform at most once: the (name, overall
    pick) pairs of the output form a sub-multiset of those of the draft
    picks, and the output has no more rows than the draft has picks. *)
Theorem unique_rankings_at_most_one_row_per_pick src draft_data fantasy_df rows :
  draft_results src = Some draft_data → fantasy_pros src = Some fantasy_df →
  NoDup (clean_ranking <$> fantasy_df) →
  transform src = Some rows →
  (λ r, (KeeperRecord.player_name r, KeeperRecord.overall_pick_2024 r)) <$> rows
  ⊆+ (λ pick, (DraftPick.player_name pick, DraftPick.overall_pick pick))
       <$> DraftData.draft_picks draft_data ∧
  (length rows ≤ length (DraftData.draft_picks draft_data))%nat.
Proof.
  intros Hd Hf Hnodup (draft_data' & fantasy_df' & Hd' & Hf' & _ & ->)%transform_Some.
  simplify_eq.
  set (draft_df := draft_record _ <$> _).
  assert ((λ r, (KeeperRecord.player_name r, KeeperRecord.overall_pick_2024 r))
            <$> analysis_rows draft_df fantasy_df
          ⊆+ (λ pick, (DraftPick.player_name pick, DraftPick.overall_pick pick))
               <$> DraftData.draft_picks draft_data) as Hsub.
  { transitivity
      ((λ r, (KeeperRecord.player_name r, KeeperRecord.overall_pick_2024 r))
         <$> (final_columns <$> merge draft_df fantasy_df)).
    - apply fmap_submseteq. unfold analysis_rows, pd.sort_values.
      rewrite stable_sort_perm.
      etransitivity; apply sublist_submseteq, sublist_filter.
    - transitivity
        ((λ d, (DraftRecord.player_name d, DraftRecord.overall_pick_2024 d))
           <$> (Merged.draft <$> merge draft_df fantasy_df)).
      { by rewrite <- !list_fmap_compose. }
      rewrite merge_drafts_unique by done.
      unfold draft_df. by rewrite <- list_fmap_compose. }
  split; [done|].
  apply submseteq_length in Hsub. by rewrite !length_fmap in Hsub.
Qed.

Lemma team_to_manager_foldl teams (m : gmap string string) name :
  foldl (λ m team, <[Team.team_name team := Team.manager team]> m) m teams !! name
  = match last (filter (λ team, Team.team_name team = name) teams) with
    | Some team => Some (Team.manager team)
    | None => m !! name
    end.
Proof.
  revert m. induction teams as [|team teams IH]; intros m; simpl; [done|].
  rewrite IH, filter_cons.
  destruct (decide (Team.team_name team = name)) as [Heq|Hne].
  - rewrite last_cons. destruct (last (filter _ teams)); [done|].
    rewrite Heq. apply lookup_insert_eq.
  - destruct (last (filter _ teams)); [done|]. by apply lookup_insert_ne.
Qed.

(** X4: the manager shown for a pick is the manager of the last team of the
    draft file that carries the pick's drafting-team name, and the raw
    drafting-team name itself when no team carries it. *)
Theorem manager_of_last_team_of_that_name teams pick :
  DraftRecord.manager_2024 (draft_record (team_to_manager teams) pick)
  = match last (filter (λ team, Team.team_name team = DraftPick.drafting_team pick)
                       teams) with
    | Some team => Team.manager team
    | None => DraftPick.drafting_team pick
    end.
Proof.
  unfold draft_record, team_to_manager; simpl.
  rewrite team_to_manager_foldl, lookup_empty.
  by destruct (last (filter _ teams)).
Qed.

(** X5: in every row of the transform's output a keeper round is at least 1,
    so a keeper value is at most the projected round minus 1; and for a pick
    that is no waiver pickup the keeper round is never later than the round
    the player was drafted in, when that round is 1 or later. *)
Theorem keeper_round_at_least_1 src rows r keeper :
  transform src = Some rows → r ∈ rows →
  KeeperRecord.keeper_round_2025 r = Some keeper →
  1 ≤ keeper ∧
  (∀ projected, KeeperRecord.projected_draft_round_2025 r = Some projected →
     Recommendation.keeper_value (with_keeper_value r) = Some (projected - keeper) ∧
     projected - keeper ≤ projected - 1) ∧
  (KeeperRecord.waiver_pickup r = false →
     ∀ draft_round, KeeperRecord.draft_round_2024 r = Some draft_round →
       1 ≤ draft_round → keeper ≤ draft_round).
Proof.
  intros Hsrc Hr. destruct (transform_row _ _ _ Hsrc Hr) as (row & -> & _).
  unfold with_keeper_value, final_columns, calculate_keeper_round,
    Merged.waiver_pickup, Merged.draft_round_2024; simpl.
  destruct (DraftRecord.waiver_pickup _), (DraftRecord.draft_round_2024 _);
    intros [= <-]; split_and!; try lia; try done.
  - intros projected ->. simpl. split; [done|lia].
  - intros projected ->. simpl. split; [done|lia].
  - intros projected ->. simpl. split; [done|lia].
  - intros _ draft_round [= <-]. lia.
Qed.

Lemma ceil_div_12_mono x y : x ≤ y → ceil_div x 12 ≤ ceil_div y 12.
Proof.
  intros Hxy.
  pose proof (proj1 (ceil_div_12_spec x _) eq_refl).
  pose proof (proj1 (ceil_div_12_spec y _) eq_refl). lia.
Qed.

(** X6: over the rows of the transform's output the projected round is
    monotone in the 2025 rank: a row ranked no worse than another is
    projected no later; and a rank of 1 or more projects to round 1 or
    later. *)
Theorem projected_round_monotone src rows r1 r2 rank1 rank2 :
  transform src = Some rows → r1 ∈ rows → r2 ∈ rows →
  KeeperRecord.draft_rank_2025 r1 = Some rank1 →
  KeeperRecord.draft_rank_2025 r2 = Some rank2 →
  rank1 ≤ rank2 →
  ∃ projected1 projected2,
    KeeperRecord.projected_draft_round_2025 r1 = Some projected1 ∧
    KeeperRecord.projected_draft_round_2025 r2 = Some projected2 ∧
    projected1 ≤ projected2 ∧
    (1 ≤ rank1 → 1 ≤ projected1).
Proof.
  intros Hsrc Hr1 Hr2.
  destruct (transform_row _ _ _ Hsrc Hr1) as (row1 & -> & _).
  destruct (transform_row _ _ _ Hsrc Hr2) as (row2 & -> & _).
  unfold final_columns, projected_draft_round; simpl.
  intros -> -> Hle. eexists _, _. split_and!; [done..| |].
  - by apply ceil_div_12_mono.
  - pose proof (proj1 (ceil_div_12_spec rank1 _) eq_refl). lia.
Qed.

(** ** The managers of the filter, the pages and the JSON endpoints *)

Lemma elem_of_unique x l : x ∈ Py.unique l ↔ x ∈ l.
Proof.
  induction l as [|y l IH]; simpl; [done|].
  rewrite !elem_of_cons, list_elem_of_filter, IH.
  destruct (decide (x = y)) as [->|Hne]; [split; auto|].
  split; [intros [?|[_ ?]]; auto|intros [?|?]; [done|auto]].
Qed.

Lemma NoDup_unique l : NoDup (Py.unique l).
Proof.
  induction l as [|y l IH]; simpl; [constructor|].
  apply NoDup_cons. split; [|by apply NoDup_filter].
  rewrite list_elem_of_filter. by intros [? _].
Qed.

Lemma string_leb_total a b : String.leb a b = true ∨ String.leb b a = true.
Proof. apply String.leb_total. Qed.

Lemma string_leb_trans a b c :
  String.leb a b = true → String.leb b c = true → String.leb a c = true.
Proof.
  intros Hab%Is_true_true Hbc%Is_true_true. apply Is_true_true.
  exact (transitivity (R := String.le) Hab Hbc).
Qed.

Lemma unique_managers_spec df :
  (∀ manager, manager ∈ unique_managers df ↔
     ∃ r, r ∈ df ∧ KeeperRecord.manager_2024 r = manager) ∧
  NoDup (unique_managers df) ∧
  StronglySorted (λ a b, String.leb a b = true) (unique_managers df).
Proof.
  unfold unique_managers, Py.sorted_str. split_and!.
  - intros manager. rewrite stable_sort_perm, elem_of_unique, list_elem_of_fmap.
    split; [intros (r & -> & Hr)|intros (r & Hr & <-)]; eauto.
  - rewrite stable_sort_perm. apply NoDup_unique.
  - apply (stable_sort_sorted String.leb id);
      [apply string_leb_total|apply string_leb_trans].
Qed.

Lemma api_dataframe_of_transform src rows :
  transform src = Some rows → Api.create_keeper_analysis_dataframe src = rows.
Proof. unfold Api.create_keeper_analysis_dataframe. by intros ->. Qed.

(** X7: when the transform gives at least one row, the managers endpoint
    lists exactly the managers that have a row in the output, each once, in
    ascending order of their names. *)
Theorem api_managers_lists_each_manager_once src rows :
  transform src = Some rows → rows ≠ [] →
  ∃ managers,
    Web.api_managers src = Web.Managers managers ∧
    (∀ manager, manager ∈ managers ↔
       ∃ r, r ∈ rows ∧ KeeperRecord.manager_2024 r = manager) ∧
    NoDup managers ∧
    (∀ i j a b, (i < j)%nat → managers !! i = Some a → managers !! j = Some b →
       String.leb a b = true ∧ a ≠ b).
Proof.
  intros Hsrc Hrows. unfold Web.api_managers.
  rewrite (api_dataframe_of_transform _ _ Hsrc).
  destruct rows as [|r rows]; [done|].
  destruct (unique_managers_spec (r :: rows)) as (Helem & Hnodup & Hsorted).
  eexists. split_and!; [done..|].
  intros i j a b Hij Ha Hb. split.
  - exact (StronglySorted_lookup_lt _ _ _ _ _ _ Hsorted Hij Ha Hb).
  - intros ->. assert (i = j) by (by eapply NoDup_lookup). lia.
Qed.

(** X8: a manager that the managers endpoint does not list has no row, so
    the recommendation selector answers it with the success status and no
    recommendation; recommendations are returned only for listed managers. *)
Theorem unlisted_manager_has_no_recommendations src rows managers manager :
  transform src = Some rows → rows ≠ [] →
  Web.api_managers src = Web.Managers managers →
  (manager ∉ managers →
     api_keeper_recommendations src manager = NoEligibleKeepers manager) ∧
  (∀ recs, api_keeper_recommendations src manager = Recommendations manager recs →
     manager ∈ managers).
Proof.
  intros Hsrc Hrows. unfold Web.api_managers, api_keeper_recommendations.
  rewrite (api_dataframe_of_transform _ _ Hsrc).
  destruct rows as [|r0 rows]; [done|]. intros [= <-].
  destruct (unique_managers_spec (r0 :: rows)) as (Helem & _ & _).
  assert (manager ∉ unique_managers (r0 :: rows) →
          filter (eligible_for manager) (r0 :: rows) = []) as Hnone.
  { intros Hnot. apply filter_none, Forall_forall. intros r Hr [Hm _].
    apply Hnot, Helem. eauto. }
  split.
  - intros Hnot. unfold keeper_recommendations. by rewrite Hnone.
  - intros recs Hrecs.
    destruct (decide (manager ∈ unique_managers (r0 :: rows))) as [|Hnot]; [done|].
    unfold keeper_recommendations in Hrecs. by rewrite Hnone in Hrecs.
Qed.

(** The keeper-round column is numeric exactly when some pick of the draft
    is a waiver pickup or has a round: every pick has a row in the merged
    frame, and the keeper round of a row depends on its pick only. *)
Lemma infer_dtype_numeric values :
  pd.infer_dtype values = pd.numeric ↔ ∃ x, Some x ∈ values.
Proof.
  unfold pd.infer_dtype. destruct (existsb pd.notna values) eqn:Hex.
  - split; [intros _|done].
    apply existsb_exists in Hex as ([x|] & Hin & Hx); [|done].
    exists x. by apply list_elem_of_In.
  - split; [done|]. intros (x & Hin).
    assert (existsb pd.notna values = true) as Htrue; [|congruence].
    apply existsb_exists. exists (Some x). split; [by apply list_elem_of_In|done].
Qed.

Lemma keeper_round_dtype_numeric src :
  Api.keeper_round_dtype src = pd.numeric ↔
  ∃ draft_data fantasy_df pick,
    draft_results src = Some draft_data ∧ fantasy_pros src = Some fantasy_df ∧
    pick ∈ DraftData.draft_picks draft_data ∧
    (DraftPick.waiver_pickup pick = Some true ∨ is_Some (DraftPick.round pick)).
Proof.
  unfold Api.keeper_round_dtype. split.
  - destruct (draft_results src) as [draft_data|]; [|done].
    destruct (fantasy_pros src) as [fantasy_df|]; [|done].
    rewrite infer_dtype_numeric. intros (x & Hx).
    apply list_elem_of_fmap in Hx as (row & Hx & Hrow).
    apply elem_of_merge in Hrow as (d & Hd & Hrow).
    apply list_elem_of_fmap in Hd as (pick & -> & Hpick).
    exists draft_data, fantasy_df, pick. split_and!; try done.
    assert (Merged.draft row
            = draft_record (team_to_manager (DraftData.teams draft_data)) pick)
      as Hdraft by (by destruct Hrow as [[_ ->]|(r & _ & ->)]).
    unfold calculate_keeper_round, Merged.waiver_pickup, Merged.draft_round_2024
      in Hx.
    rewrite Hdraft in Hx. simpl in Hx.
    destruct (DraftPick.waiver_pickup pick) as [[]|]; simpl in Hx; [by left|..];
      (destruct (DraftPick.round pick); [by right|done]).
  - intros (draft_data & fantasy_df & pick & -> & -> & Hpick & Hround).
    rewrite infer_dtype_numeric.
    set (d := draft_record (team_to_manager (DraftData.teams draft_data)) pick).
    assert (∃ row, row ∈ merge (draft_record (team_to_manager
                                    (DraftData.teams draft_data))
                                  <$> DraftData.draft_picks draft_data) fantasy_df
                   ∧ Merged.draft row = d) as (row & Hrow & Hdraft).
    { destruct (partners d fantasy_df) as [|r rs] eqn:Hp.
      - exists (Merged.mk d (clean_draft d) None None). split; [|done].
        apply elem_of_merge. exists d. split; [by apply list_elem_of_fmap_2|].
        by left.
      - exists (Merged.mk d (clean_draft d) (RankingRow.draft_rank_2025 r)
                  (RankingRow.position_rank_2025 r)). split; [|done].
        apply elem_of_merge. exists d. split; [by apply list_elem_of_fmap_2|].
        right. exists r. split; [|done]. rewrite Hp. left. }
    assert (is_Some (calculate_keeper_round row)) as [x Hx].
    { unfold calculate_keeper_round, Merged.waiver_pickup, Merged.draft_round_2024.
      rewrite Hdraft. subst d. simpl.
      destruct Hround as [->|[round ->]]; simpl; [done|].
      by destruct (default false (DraftPick.waiver_pickup pick)). }
    exists x. rewrite <- Hx. by apply list_elem_of_fmap_2.
Qed.


(** X24: the selector answers with the internal-server error exactly when
    the manager has an eligible row in the frame and no pick of the draft is
    a waiver pickup or has a round. *)
Theorem internal_error_iff_no_keeper_round src manager :
  api_keeper_recommendations src manager = InternalServerError ↔
  filter (eligible_for manager) (Api.create_keeper_analysis_dataframe src) ≠ [] ∧
  ∀ draft_data pick,
    draft_results src = Some draft_data →
    pick ∈ DraftData.draft_picks draft_data →
    DraftPick.waiver_pickup pick ≠ Some true ∧ DraftPick.round pick = None.
Proof.
  unfold api_keeper_recommendations, keeper_recommendations.
  destruct (Api.create_keeper_analysis_dataframe src) as [|r0 df] eqn:Hdf.
  { split; [done|]. by intros [? _]. }
  destruct (filter (eligible_for manager) (r0 :: df)) as [|c cs] eqn:Hfilter.
  { split; [done|]. by intros [? _]. }
  assert (∃ rows, transform src = Some rows) as (rows & Hsrc).
  { unfold Api.create_keeper_analysis_dataframe in Hdf.
    destruct (transform src); [eauto|done]. }
  apply transform_Some in Hsrc as (draft_data & fantasy_df & Hd & Hf & _ & _).
  destruct (Api.keeper_round_dtype src) eqn:Hdtype; simpl.
  - split; [done|]. intros [_ Hnone].
    apply keeper_round_dtype_numeric in Hdtype
      as (draft_data' & fantasy_df' & pick & Hd' & _ & Hpick & Hround).
    destruct (Hnone draft_data' pick Hd' Hpick) as [Hw Hr].
    destruct Hround as [?|[round Hround]]; congruence.
  - split; [|done]. intros _. split; [done|].
    intros draft_data' pick Hd' Hpick.
    assert (¬ (DraftPick.waiver_pickup pick = Some true
               ∨ is_Some (DraftPick.round pick))) as Hnot.
    { intros Hround.
      assert (Api.keeper_round_dtype src = pd.numeric) as Hnum; [|congruence].
      apply keeper_round_dtype_numeric.
      exists draft_data', fantasy_df, pick. by split_and!. }
    split.
    + intros Hw. apply Hnot. by left.
    + destruct (DraftPick.round pick) as [round|] eqn:Hround; [|done].
      exfalso. apply Hnot. right. by exists round.
Qed.

(** X9: the two keeper-analysis pages show the same players and the same
    managers whenever the transform gives at least one row; when it succeeds
    with no row, the page of the command-line application renders an empty
    table while the page of the web application renders the error view. *)
Theorem keeper_analysis_pages_agree_on_rows src rows :
  transform src = Some rows →
  (rows ≠ [] →
     Web.keeper_analysis src = KeeperAnalysisPage rows (unique_managers rows) ∧
     Commands.keeper_analysis_web src = Web.keeper_analysis src) ∧
  (rows = [] →
     Web.keeper_analysis src = ErrorPage "Unable to load keeper analysis data" ∧
     Commands.keeper_analysis_web src = KeeperAnalysisPage [] []).
Proof.
  intros Hsrc. unfold Web.keeper_analysis, Commands.keeper_analysis_web,
    Cli.create_keeper_analysis_dataframe.
  rewrite (api_dataframe_of_transform _ _ Hsrc), Hsrc. split.
  - intros Hrows. by destruct rows.
  - by intros ->.
Qed.

Lemma not_kicker_or_defense r :
  kicker_or_defense r = false ↔
  ∀ position, KeeperRecord.position_rank_2025 r = Some position →
    Str.startswith "K" position = false ∧ Str.startswith "DST" position = false.
Proof.
  unfold kicker_or_defense, position_str.
  destruct (KeeperRecord.position_rank_2025 r) as [position|]; simpl.
  - rewrite orb_false_iff. split; [by intros ? ? [= <-]|eauto].
  - split; [done|]. intros _. reflexivity.
Qed.

(** The rows of the result are the ranked, non-kicker, non-defense joins of
    a draft record with a ranking row of its trimmed name. *)
Lemma analysis_rows_joins r draft_records fantasy_df :
  r ∈ analysis_rows draft_records fantasy_df ↔
  ∃ d ranking,
    d ∈ draft_records ∧ ranking ∈ fantasy_df ∧
    clean_ranking ranking = clean_draft d ∧
    is_Some (RankingRow.draft_rank_2025 ranking) ∧
    (∀ position, RankingRow.position_rank_2025 ranking = Some position →
       Str.startswith "K" position = false ∧ Str.startswith "DST" position = false) ∧
    r = final_columns
          (Merged.mk d (clean_draft d) (RankingRow.draft_rank_2025 ranking)
                     (RankingRow.position_rank_2025 ranking)).
Proof.
  rewrite elem_of_analysis_rows. split.
  - intros (Hkd & Hrank & row & Hrow & ->).
    apply elem_of_merge in Hrow as (d & Hd & [[_ ->]|(ranking & Hranking & ->)]);
      [done|].
    apply list_elem_of_filter in Hranking as [Hname Hranking].
    exists d, ranking. split_and!; try done.
    + simpl in Hrank. by destruct (RankingRow.draft_rank_2025 ranking).
    + exact (proj1 (not_kicker_or_defense _) Hkd).
  - intros (d & ranking & Hd & Hranking & Hname & [rank Hrank] & Hpos & ->).
    split_and!.
    + apply not_kicker_or_defense. exact Hpos.
    + simpl. by rewrite Hrank.
    + eexists. split; [|done]. apply elem_of_merge. exists d. split; [done|].
      right. exists ranking. split; [|done]. by apply list_elem_of_filter.
Qed.

(** X10: the players endpoint answers "No data available" exactly when no
    draft pick can be read together with a ranking row of its trimmed name
    that has a rank and is neither a kicker nor a defense; otherwise it
    returns the output of the transform and its number of rows. *)
Theorem api_players_no_data_iff src :
  (Web.api_players src = Web.PlayersNoData ↔
   ¬ ∃ draft_data fantasy_df pick ranking,
       draft_results src = Some draft_data ∧ fantasy_pros src = Some fantasy_df ∧
       pick ∈ DraftData.draft_picks draft_data ∧ ranking ∈ fantasy_df ∧
       Str.strip (RankingRow.player_name ranking)
       = Str.strip (DraftPick.player_name pick) ∧
       is_Some (RankingRow.draft_rank_2025 ranking) ∧
       (∀ position, RankingRow.position_rank_2025 ranking = Some position →
          Str.startswith "K" position = false ∧
          Str.startswith "DST" position = false)) ∧
  (Web.api_players src ≠ Web.PlayersNoData →
   ∃ rows, transform src = Some rows ∧
           Web.api_players src = Web.Players rows (length rows)).
Proof.
  unfold Web.api_players, Api.create_keeper_analysis_dataframe. split.
  - split.
    + intros Hnodata (draft_data & fantasy_df & pick & ranking
                      & Hd & Hf & Hpick & Hranking & Hname & Hrank & Hpos).
      assert (DraftData.draft_picks draft_data ≠ []) as Hpicks.
      { intros Hnil. rewrite Hnil in Hpick. by apply not_elem_of_nil in Hpick. }
      assert (transform src = Some (analysis_rows
                (draft_record (team_to_manager (DraftData.teams draft_data))
                   <$> DraftData.draft_picks draft_data) fantasy_df)) as Hsrc.
      { apply transform_Some. eauto 10. }
      rewrite Hsrc in Hnodata; simpl in Hnodata.
      destruct (analysis_rows _ fantasy_df) as [|r rows] eqn:Hrows; [|done].
      eapply (not_elem_of_nil (A := KeeperRecord.t)). rewrite <- Hrows.
      apply analysis_rows_joins. eexists _, ranking.
      split_and!; [apply list_elem_of_fmap; eauto|done..].
    + intros Hnone. destruct (transform src) as [rows|] eqn:Hsrc; [|done].
      destruct rows as [|r rows]; [done|]. exfalso. apply Hnone.
      apply transform_Some in Hsrc
        as (draft_data & fantasy_df & Hd & Hf & _ & Hrows).
      assert (r ∈ analysis_rows
                (draft_record (team_to_manager (DraftData.teams draft_data))
                   <$> DraftData.draft_picks draft_data) fantasy_df) as Hr
        by (rewrite <- Hrows; left).
      apply analysis_rows_joins in Hr
        as (d & ranking & Hdr & Hranking & Hname & Hrank & Hpos & _).
      apply list_elem_of_fmap in Hdr as (pick & -> & Hpick).
      exists draft_data, fantasy_df, pick, ranking. by split_and!.
  - destruct (transform src) as [rows|]; [|done].
    destruct rows as [|r rows]; [done|]. eauto.
Qed.

(** ** The [keeper_analysis] command *)

Lemma filter_all {A} (P : A → Prop) `{!∀ x, Decision (P x)} (l : list A) :
  Forall P l → filter P l = l.
Proof.
  induction 1 as [|x l Hx _ IH]; [done|].
  by rewrite filter_cons_True, IH.
Qed.

(** X11: the [keeper_analysis] command always reports as many players with
    2025 rankings as players in total, since the transform has dropped the
    unranked ones; it never prints a best keeper value; and it breaks off
    with the error message exactly when the output holds a player kept in
    2024. *)
Theorem keeper_analysis_command_never_lists_values src :
  match Commands.keeper_analysis src with
  | Commands.FailedToCreateDataframe => transform src = None
  | Commands.AnalysisAborted total_players matched_players =>
      matched_players = total_players ∧
      ∃ rows r, transform src = Some rows ∧ length rows = total_players ∧
                r ∈ rows ∧ KeeperRecord.keeper_status_2024 r = true
  | Commands.Analysis total_players matched_players best_keeper_values =>
      matched_players = total_players ∧ best_keeper_values = [] ∧
      ∃ rows, transform src = Some rows ∧ length rows = total_players ∧
              ∀ r, r ∈ rows → KeeperRecord.keeper_status_2024 r = false
  end.
Proof.
  unfold Commands.keeper_analysis, Cli.create_keeper_analysis_dataframe.
  destruct (transform src) as [rows|] eqn:Hsrc; [|done].
  rewrite (filter_all (λ r, pd.notna (KeeperRecord.draft_rank_2025 r) = true)).
  2:{ apply Forall_forall. intros r Hr.
      by destruct (transform_row _ _ _ Hsrc Hr) as (_ & _ & _ & ?). }
  destruct (filter _ rows) as [|keeper keepers] eqn:Hkeepers.
  - split_and!; [done..|]. exists rows. split_and!; [done..|].
    intros r Hr. destruct (KeeperRecord.keeper_status_2024 r) eqn:Hk; [|done].
    exfalso. eapply (not_elem_of_nil (A := KeeperRecord.t)). rewrite <- Hkeepers.
    by apply list_elem_of_filter.
  - split; [done|]. exists rows, keeper.
    assert (keeper ∈ filter (λ r, KeeperRecord.keeper_status_2024 r = true) rows)
      as [? ?]%list_elem_of_filter by (rewrite Hkeepers; left).
    done.
Qed.

(** ** The mutator and the transform *)

Lemma set_keeper_status_flags player new_status picks :
  (λ pick, with_keeper_status pick false) <$> set_keeper_status player new_status picks
  = (λ pick, with_keeper_status pick false) <$> picks.
Proof.
  induction picks as [|pick picks IH]; [done|].
  cbn [set_keeper_status]. case_decide; rewrite !fmap_cons; [done|].
  by rewrite IH.
Qed.

(** What the command writes, whenever it writes. *)
Lemma update_keeper_written input file written :
  (update_keeper input file).2 = Some written →
  Str.strip input ≠ "" ∧
  ∃ draft_data player,
    file = Some draft_data ∧
    filter (name_matches (Str.strip input)) (DraftData.draft_picks draft_data)
    = [player] ∧
    DraftData.draft_info written = DraftData.draft_info draft_data ∧
    DraftData.teams written = DraftData.teams draft_data ∧
    (λ pick, with_keeper_status pick false) <$> DraftData.draft_picks written
    = (λ pick, with_keeper_status pick false) <$> DraftData.draft_picks draft_data.
Proof.
  unfold update_keeper.
  destruct (decide (Str.strip input = "")) as [|Hname]; [done|].
  destruct file as [draft_data|]; [|done].
  destruct (filter _ (DraftData.draft_picks draft_data))
    as [|player [|other others]] eqn:Hmatch; [done| |].
  - rewrite decide_False by (simpl; lia). simpl. intros [= <-].
    split; [done|]. exists draft_data, player. split_and!; try done.
    simpl. apply set_keeper_status_flags.
  - rewrite decide_True by (simpl; lia). done.
Qed.

(** X12: whatever is typed, the command writes the file only when the name
    typed is not empty, the file is read and exactly one pick matches the
    name; and what it writes has the draft info, the teams and the picks of
    the file read, the picks in the same order and equal in every field but
    the keeper status. *)
Theorem update_keeper_writes_only_keeper_flags input file written :
  (update_keeper input file).2 = Some written →
  Str.strip input ≠ "" ∧
  ∃ draft_data player,
    file = Some draft_data ∧
    filter (name_matches (Str.strip input)) (DraftData.draft_picks draft_data)
    = [player] ∧
    DraftData.draft_info written = DraftData.draft_info draft_data ∧
    DraftData.teams written = DraftData.teams draft_data ∧
    (λ pick, with_keeper_status pick false) <$> DraftData.draft_picks written
    = (λ pick, with_keeper_status pick false) <$> DraftData.draft_picks draft_data.
Proof.
  unfold update_keeper.
  destruct (decide (Str.strip input = "")) as [|Hname]; [done|].
  destruct file as [draft_data|]; [|done].
  destruct (filter _ (DraftData.draft_picks draft_data))
    as [|player [|other others]] eqn:Hmatch; [done| |].
  - rewrite decide_False by (simpl; lia). simpl. intros [= <-].
    split; [done|]. exists draft_data, player. split_and!; try done.
    simpl. apply set_keeper_status_flags.
  - rewrite decide_True by (simpl; lia). done.
Qed.

(** The command on a name that matches one pick, as a rewriting of the
    picks. *)
Lemma update_keeper_single input draft_data before player after :
  Str.strip input ≠ "" →
  DraftData.draft_picks draft_data = before ++ player :: after →
  name_matches (Str.strip input) player →
  Forall (λ pick, ¬ name_matches (Str.strip input) pick) (before ++ after) →
  update_keeper input (Some draft_data)
  = (Updated (DraftPick.player_name player) (negb (DraftPick.keeper_status player)),
     Some (DraftData.mk (DraftData.draft_info draft_data) (DraftData.teams draft_data)
             (before ++ with_keeper_status player
                          (negb (DraftPick.keeper_status player)) :: after))).
Proof.
  intros Hname Hpicks Hplayer [Hbefore Hafter]%Forall_app.
  unfold update_keeper. rewrite decide_False by done.
  rewrite Hpicks, filter_app, filter_cons_True by done.
  rewrite !filter_none by done. simpl.
  by rewrite (set_keeper_status_first (Str.strip input)).
Qed.

(** X13: when the name typed matches exactly one pick, running the command
    twice with that name restores the file: the second run reports the
    status the player had and writes back the data first read. *)
Theorem update_keeper_twice_restores input draft_data before player after :
  Str.strip input ≠ "" →
  DraftData.draft_picks draft_data = before ++ player :: after →
  name_matches (Str.strip input) player →
  Forall (λ pick, ¬ name_matches (Str.strip input) pick) (before ++ after) →
  ∃ written,
    update_keeper input (Some draft_data)
    = (Updated (DraftPick.player_name player) (negb (DraftPick.keeper_status player)),
       Some written) ∧
    update_keeper input (Some written)
    = (Updated (DraftPick.player_name player) (DraftPick.keeper_status player),
       Some draft_data).
Proof.
  intros Hname Hpicks Hplayer Hothers.
  eexists. split; [by apply update_keeper_single|].
  rewrite (update_keeper_single input _ before
             (with_keeper_status player (negb (DraftPick.keeper_status player)))
             after); try done.
  destruct draft_data as [info teams picks], player; simpl in *.
  rewrite negb_involutive. by subst.
Qed.

Lemma insert_sorted_fmap {A B K} (leb : K → K → bool) (key : B → K) (f : A → B) x l :
  pd.insert_sorted leb key (f x) (f <$> l)
  = f <$> pd.insert_sorted leb (key ∘ f) x l.
Proof.
  induction l as [|y l IH]; [done|].
  rewrite fmap_cons. cbn [pd.insert_sorted]. unfold compose at 1 2.
  destruct (leb (key (f x)) (key (f y))); [done|].
  by rewrite IH, fmap_cons.
Qed.

Lemma stable_sort_fmap {A B K} (leb : K → K → bool) (key : B → K) (f : A → B) l :
  pd.stable_sort leb key (f <$> l) = f <$> pd.stable_sort leb (key ∘ f) l.
Proof.
  induction l as [|x l IH]; [done|].
  rewrite fmap_cons. cbn [pd.stable_sort]. by rewrite IH, insert_sorted_fmap.
Qed.

Lemma filter_fmap {A B} (P : B → Prop) `{!∀ y, Decision (P y)} (f : A → B)
    (l : list A) :
  filter P (f <$> l) = f <$> filter (λ x, P (f x)) l.
Proof.
  induction l as [|x l IH]; [done|].
  rewrite fmap_cons, !filter_cons, IH. by destruct (decide (P (f x))).
Qed.

Lemma merge_cons d draft_df fantasy_df :
  merge (d :: draft_df) fantasy_df = merge [d] fantasy_df ++ merge draft_df fantasy_df.
Proof. apply (merge_app [d] draft_df). Qed.

Lemma merge_sans_status draft_df fantasy_df :
  merge (draft_sans_status <$> draft_df) fantasy_df
  = merged_sans_status <$> merge draft_df fantasy_df.
Proof.
  induction draft_df as [|d draft_df IH]; [done|].
  rewrite fmap_cons, (merge_cons (draft_sans_status d)), (merge_cons d draft_df).
  rewrite fmap_app, IH, !merge_singleton. f_equal.
  change (partners (draft_sans_status d) fantasy_df) with (partners d fantasy_df).
  destruct (partners d fantasy_df) as [|r rs]; [done|].
  by rewrite <- list_fmap_compose.
Qed.

(** Blanking the keeper status commutes with the steps of the transform. *)
Lemma analysis_rows_sans_status draft_df fantasy_df :
  analysis_rows (draft_sans_status <$> draft_df) fantasy_df
  = sans_status <$> analysis_rows draft_df fantasy_df.
Proof.
  unfold analysis_rows, pd.sort_values.
  rewrite merge_sans_status, <- list_fmap_compose.
  rewrite (list_fmap_compose final_columns sans_status).
  by rewrite !filter_fmap, stable_sort_fmap.
Qed.

(** X14: toggling a keeper changes nothing in the keeper analysis but the
    keeper-status column: the transform fails on the data written exactly
    when it failed on the data read and, the keeper status set aside, gives
    the same rows in the same order, with the same ranks, projected rounds
    and keeper rounds. *)
Theorem keeper_toggle_leaves_analysis input draft_data written fantasy :
  (update_keeper input (Some draft_data)).2 = Some written →
  (λ rows : list KeeperRecord.t, sans_status <$> rows)
    <$> transform {| draft_results := Some written; fantasy_pros := fantasy |}
  = (λ rows : list KeeperRecord.t, sans_status <$> rows)
    <$> transform {| draft_results := Some draft_data; fantasy_pros := fantasy |}.
Proof.
  intros (_ & draft_data' & player & [= <-] & _ & _ & Hteams & Hpicks)
    %update_keeper_written.
  unfold transform; simpl. destruct fantasy as [fantasy_df|]; [|done].
  destruct (decide (DraftData.draft_picks draft_data = [])) as [Hnil|Hne].
  - rewrite Hnil in Hpicks. apply fmap_nil_inv in Hpicks.
    by rewrite !keeper_analysis_dataframe_None.
  - assert (DraftData.draft_picks written ≠ []) as Hne'.
    { intros Hnil. rewrite Hnil in Hpicks. symmetry in Hpicks.
      by apply fmap_nil_inv in Hpicks. }
    rewrite !keeper_analysis_dataframe_Some by done. simpl. f_equal.
    rewrite <- !analysis_rows_sans_status, Hteams. f_equal.
    set (t2m := team_to_manager (DraftData.teams draft_data)).
    transitivity
      ((λ pick, draft_sans_status (draft_record t2m pick))
         <$> ((λ pick, with_keeper_status pick false) <$> DraftData.draft_picks written)).
    { by rewrite <- !list_fmap_compose. }
    rewrite Hpicks. by rewrite <- !list_fmap_compose.
Qed.

(** ** The listings of the command line *)

Lemma sort_by_key_Some {A} (key : A → option Z) (l : list A) :
  Forall (λ x, is_Some (key x)) l →
  Py.sort_by_key key l = Some (pd.stable_sort pd.asc_leb key l).
Proof. intros Hkeys. unfold Py.sort_by_key. by rewrite decide_True. Qed.

Lemma sort_by_key_None {A} (key : A → option Z) (l : list A) :
  ¬ Forall (λ x, is_Some (key x)) l → Py.sort_by_key key l = None.
Proof. intros Hkeys. unfold Py.sort_by_key. by rewrite decide_False. Qed.

(** The loop prints the lines of the elements before the first one whose
    line raises, and runs to its end when there is none. *)
Lemma print_each_split {A L} (line : A → option L) (l : list A) :
  ∃ printed rest,
    l = printed ++ rest ∧
    Some <$> (Py.print_each line l).1 = line <$> printed ∧
    (Py.print_each line l).2 = bool_decide (rest = []) ∧
    match rest with [] => True | x :: _ => line x = None end.
Proof.
  induction l as [|x l (printed & rest & Hl & Hlines & Hdone & Hrest)].
  - by exists [], [].
  - cbn [Py.print_each]. destruct (line x) as [ln|] eqn:Hx.
    + exists (x :: printed), rest. cbn [fst snd]. split_and!; [|  |done..].
      * simpl. by f_equal.
      * rewrite !fmap_cons, Hx. by f_equal.
    + exists [], (x :: l). by split_and!.
Qed.

Lemma print_each_complete {A L} (line : A → option L) (l : list A) :
  Forall (λ x, is_Some (line x)) l →
  (Py.print_each line l).2 = true ∧ Some <$> (Py.print_each line l).1 = line <$> l.
Proof.
  induction 1 as [|x l [ln Hx] _ [IH1 IH2]]; [done|].
  cbn [Py.print_each]. rewrite Hx. cbn [fst snd]. split; [done|].
  rewrite !fmap_cons, Hx. by f_equal.
Qed.

(** Lines printed from picks in ascending order of overall pick are in
    ascending order of the pick they show. *)
Lemma printed_lines_ascending {L} (line : DraftPick.t → option L)
    (overall_of : L → Z) (picks : list DraftPick.t) (lines : list L) :
  (∀ pick ln, line pick = Some ln →
     DraftPick.overall_pick pick = Some (overall_of ln)) →
  StronglySorted (pd.key_le pd.asc_leb DraftPick.overall_pick) picks →
  Some <$> lines = line <$> picks →
  ∀ i j a b, (i < j)%nat → lines !! i = Some a → lines !! j = Some b →
    overall_of a ≤ overall_of b.
Proof.
  intros Hline Hsorted Hlines i j a b Hij Ha Hb.
  assert (∀ k c, lines !! k = Some c →
            ∃ pick, picks !! k = Some pick ∧ line pick = Some c) as Hpick.
  { intros k c Hc.
    assert ((Some <$> lines) !! k = Some (Some c)) as Hk
      by (by rewrite list_lookup_fmap, Hc).
    rewrite Hlines, list_lookup_fmap in Hk.
    destruct (picks !! k) as [pick|]; simplify_eq/=. eauto. }
  destruct (Hpick i a Ha) as (pa & Hpa & Hla).
  destruct (Hpick j b Hb) as (pb & Hpb & Hlb).
  pose proof (StronglySorted_lookup_lt _ _ _ _ _ _ Hsorted Hij Hpa Hpb) as Hab.
  unfold pd.key_le in Hab.
  rewrite (Hline _ _ Hla), (Hline _ _ Hlb) in Hab. by apply Z.leb_le.
Qed.

(** Sorting picks by overall pick and printing one line each. *)
Lemma sort_and_print {L} (line : DraftPick.t → option L) (overall_of : L → Z)
    (picks : list DraftPick.t) :
  (∀ pick ln, line pick = Some ln →
     DraftPick.overall_pick pick = Some (overall_of ln)) →
  Forall (λ pick, is_Some (DraftPick.overall_pick pick)) picks →
  ∃ sorted printed rest lines,
    Py.sort_by_key DraftPick.overall_pick picks = Some sorted ∧
    sorted ≡ₚ picks ∧ sorted = printed ++ rest ∧
    Py.print_each line sorted = (lines, bool_decide (rest = [])) ∧
    Some <$> lines = line <$> printed ∧
    match rest with [] => True | pick :: _ => line pick = None end ∧
    ∀ i j a b, (i < j)%nat → lines !! i = Some a → lines !! j = Some b →
      overall_of a ≤ overall_of b.
Proof.
  intros Hline Hkeys. rewrite sort_by_key_Some by done.
  set (sorted := pd.stable_sort pd.asc_leb DraftPick.overall_pick picks).
  destruct (print_each_split line sorted)
    as (printed & rest & Hsplit & Hlines & Hdone & Hrest).
  exists sorted, printed, rest, (Py.print_each line sorted).1.
  split_and!; try done.
  - apply stable_sort_perm.
  - rewrite <- Hdone. by destruct (Py.print_each line sorted).
  - apply (printed_lines_ascending line overall_of printed); [done| |done].
    apply (StronglySorted_app_1_l _ _ rest). rewrite <- Hsplit.
    apply stable_sort_sorted; [apply asc_leb_total|apply asc_leb_trans].
Qed.

Lemma team_roster_selected input draft_data before team after :
  Str.strip input ≠ "" →
  DraftData.teams draft_data = before ++ team :: after →
  Commands.team_matches (Str.strip input) team →
  Forall (λ t, ¬ Commands.team_matches (Str.strip input) t) (before ++ after) →
  Commands.team_roster input (Some draft_data) =
  match Py.sort_by_key DraftPick.overall_pick
          (filter (λ pick, DraftPick.team_id pick = Team.team_id team)
                  (DraftData.draft_picks draft_data)) with
  | None => Commands.Failed
  | Some team_picks =>
      Commands.Listed (Py.print_each (Commands.roster_line team) team_picks).1
                      (Py.print_each (Commands.roster_line team) team_picks).2
  end.
Proof.
  intros Hname Hteams Hteam [Hbefore Hafter]%Forall_app.
  unfold Commands.team_roster. rewrite decide_False by done.
  rewrite Hteams, filter_app, filter_cons_True by done.
  rewrite !filter_none by done. simpl. done.
Qed.

Lemma roster_line_overall team pick ln :
  Commands.roster_line team pick = Some ln →
  DraftPick.overall_pick pick = Some (Commands.Line.overall_pick ln).
Proof.
  unfold Commands.roster_line.
  destruct (DraftPick.round pick), (DraftPick.overall_pick pick); simpl; [|done..].
  by intros [= <-].
Qed.

(** X15: when the name typed matches exactly one team and every pick of that
    team has its round and overall pick, [team_roster] prints one line for
    each pick with the team's id, and for no other pick, in ascending order
    of overall pick; a line shows the round, the pick, the player and the
    keeper mark of its pick. *)
Theorem team_roster_lists_the_team input draft_data before team after :
  Str.strip input ≠ "" →
  DraftData.teams draft_data = before ++ team :: after →
  Commands.team_matches (Str.strip input) team →
  Forall (λ t, ¬ Commands.team_matches (Str.strip input) t) (before ++ after) →
  Forall (λ pick, DraftPick.team_id pick = Team.team_id team →
                  is_Some (DraftPick.round pick) ∧
                  is_Some (DraftPick.overall_pick pick))
         (DraftData.draft_picks draft_data) →
  ∃ sorted lines,
    Commands.team_roster input (Some draft_data) = Commands.Listed lines true ∧
    sorted ≡ₚ filter (λ pick, DraftPick.team_id pick = Team.team_id team)
                     (DraftData.draft_picks draft_data) ∧
    (λ pick, (DraftPick.round pick, DraftPick.overall_pick pick,
              DraftPick.player_name pick, DraftPick.keeper_status pick)) <$> sorted
    = (λ ln, (Some (Commands.Line.round ln), Some (Commands.Line.overall_pick ln),
              Commands.Line.player_name ln, Commands.Line.mark ln)) <$> lines ∧
    ∀ i j a b, (i < j)%nat → lines !! i = Some a → lines !! j = Some b →
      Commands.Line.overall_pick a ≤ Commands.Line.overall_pick b.
Proof.
  intros Hname Hteams Hteam Hothers Hkeys.
  rewrite (team_roster_selected _ _ _ _ _ Hname Hteams Hteam Hothers).
  set (team_picks := filter _ (DraftData.draft_picks draft_data)).
  assert (Forall (λ pick, is_Some (DraftPick.round pick) ∧
                          is_Some (DraftPick.overall_pick pick)) team_picks) as Hall.
  { apply Forall_forall. intros pick [Hid Hpick]%list_elem_of_filter.
    rewrite Forall_forall in Hkeys. by apply Hkeys. }
  rewrite sort_by_key_Some by (eapply Forall_impl; [exact Hall|by intros ? []]).
  set (sorted := pd.stable_sort pd.asc_leb DraftPick.overall_pick team_picks).
  assert (sorted ≡ₚ team_picks) as Hperm by apply stable_sort_perm.
  assert (Forall (λ pick, is_Some (Commands.roster_line team pick)) sorted) as Hlines.
  { rewrite Hperm. eapply Forall_impl; [exact Hall|].
    intros pick [[round Hr] [overall Ho]]. unfold Commands.roster_line.
    rewrite Hr, Ho. simpl. eauto. }
  destruct (print_each_complete _ _ Hlines) as [Hdone Hprinted].
  exists sorted, (Py.print_each (Commands.roster_line team) sorted).1.
  rewrite Hdone. split_and!; [done..| |].
  - clear Hdone Hlines Hperm. revert Hprinted.
    generalize (Py.print_each (Commands.roster_line team) sorted).1.
    induction sorted as [|pick sorted IH]; intros [|ln lines] Hp; try done.
    rewrite !fmap_cons in Hp. injection Hp as Hln Hp.
    rewrite !fmap_cons. f_equal; [|by apply IH].
    unfold Commands.roster_line in Hln.
    destruct (DraftPick.round pick), (DraftPick.overall_pick pick);
      simplify_eq/=; done.
  - apply (printed_lines_ascending (Commands.roster_line team)
             Commands.Line.overall_pick sorted); [|  |done].
    + apply roster_line_overall.
    + apply stable_sort_sorted; [apply asc_leb_total|apply asc_leb_trans].
Qed.

(** X16: when the name typed matches exactly one team, a pick of that team
    without its overall pick makes [team_roster] fail before it prints
    anything of the roster; with all overall picks there, a pick of the team
    without its round makes the listing break off: the lines printed are
    fewer than the picks of the team, and the command reports an error. *)
Theorem team_roster_breaks_on_missing_keys input draft_data before team after :
  Str.strip input ≠ "" →
  DraftData.teams draft_data = before ++ team :: after →
  Commands.team_matches (Str.strip input) team →
  Forall (λ t, ¬ Commands.team_matches (Str.strip input) t) (before ++ after) →
  let team_picks :=
    filter (λ pick, DraftPick.team_id pick = Team.team_id team)
           (DraftData.draft_picks draft_data) in
  (¬ Forall (λ pick, is_Some (DraftPick.overall_pick pick)) team_picks →
     Commands.team_roster input (Some draft_data) = Commands.Failed) ∧
  (Forall (λ pick, is_Some (DraftPick.overall_pick pick)) team_picks →
   ¬ Forall (λ pick, is_Some (DraftPick.round pick)) team_picks →
     ∃ lines,
       Commands.team_roster input (Some draft_data) = Commands.Listed lines false ∧
       (length lines < length team_picks)%nat).
Proof.
  intros Hname Hteams Hteam Hothers team_picks.
  rewrite (team_roster_selected _ _ _ _ _ Hname Hteams Hteam Hothers).
  fold team_picks. split.
  - intros Hkeys. by rewrite sort_by_key_None.
  - intros Hkeys Hrounds.
    destruct (sort_and_print (Commands.roster_line team) Commands.Line.overall_pick
                team_picks (roster_line_overall team) Hkeys)
      as (sorted & printed & rest & lines
          & -> & Hperm & Hsplit & -> & Hlines & Hrest & _).
    simpl. destruct rest as [|pick rest].
    + exfalso. apply Hrounds. rewrite <- Hperm, Hsplit, app_nil_r.
      apply Forall_forall. intros pick Hpick.
      assert (is_Some (Commands.roster_line team pick)) as [ln Hln].
      { apply list_elem_of_lookup in Hpick as [i Hi].
        assert ((Commands.roster_line team <$> printed) !! i
                = Some (Commands.roster_line team pick)) as Hi'
          by (by rewrite list_lookup_fmap, Hi).
        rewrite <- Hlines, list_lookup_fmap in Hi'.
        destruct (lines !! i) as [ln|]; simplify_eq/=. eauto. }
      unfold Commands.roster_line in Hln.
      destruct (DraftPick.round pick); [eauto|done].
    + eexists. split; [done|].
      assert (length lines = length printed) as ->.
      { rewrite <- (length_fmap Some lines), Hlines. by rewrite length_fmap. }
      rewrite <- (Permutation_length Hperm), Hsplit, length_app. simpl. lia.
Qed.

Lemma print_each_done {A L} (line : A → option L) (l : list A) :
  (Py.print_each line l).2 = true → Forall (λ x, is_Some (line x)) l.
Proof.
  induction l as [|x l IH]; [constructor|].
  cbn [Py.print_each]. destruct (line x) as [ln|] eqn:Hx; [|done].
  cbn [snd]. intros Hdone. constructor; [eauto|by apply IH].
Qed.

Lemma pick_line_Some draft_data mark pick ln :
  Commands.pick_line draft_data mark pick = Some ln ↔
  ∃ team,
    head (filter (λ team, Team.team_id team = DraftPick.team_id pick)
                 (DraftData.teams draft_data)) = Some team ∧
    DraftPick.round pick = Some (Commands.Line.round ln) ∧
    DraftPick.overall_pick pick = Some (Commands.Line.overall_pick ln) ∧
    Commands.Line.player_name ln = DraftPick.player_name pick ∧
    Commands.Line.drafting_team ln = DraftPick.drafting_team pick ∧
    Commands.Line.manager ln = Team.manager team ∧
    Commands.Line.mark ln = mark pick.
Proof.
  unfold Commands.pick_line, Commands.team_info, Py.next.
  destruct (head (filter _ (DraftData.teams draft_data))) as [team|]; simpl.
  2:{ split; [done|]. by intros (? & ? & _). }
  destruct (DraftPick.round pick) as [round|]; simpl.
  2:{ split; [done|]. by intros (? & _ & ? & _). }
  destruct (DraftPick.overall_pick pick) as [overall|]; simpl.
  2:{ split; [done|]. by intros (? & _ & _ & ? & _). }
  split.
  - intros [= <-]. exists team. by split_and!.
  - intros (team' & [= <-] & [= ->] & [= ->] & ? & ? & ? & ?).
    destruct ln; simplify_eq/=. done.
Qed.

Lemma pick_line_overall draft_data mark pick ln :
  Commands.pick_line draft_data mark pick = Some ln →
  DraftPick.overall_pick pick = Some (Commands.Line.overall_pick ln).
Proof. by intros (team & _ & _ & ? & _)%pick_line_Some. Qed.

Lemma head_filter_is_Some {A} (P : A → Prop) `{!∀ x, Decision (P x)} (l : list A) x :
  x ∈ l → P x → is_Some (head (filter P l)).
Proof.
  intros Hx HP.
  assert (x ∈ filter P l) as Hin by (by apply list_elem_of_filter).
  destruct (filter P l); [by apply not_elem_of_nil in Hin|by eexists].
Qed.

Lemma printable_line draft_data mark pick :
  printable draft_data pick → is_Some (Commands.pick_line draft_data mark pick).
Proof.
  intros ([round Hr] & [overall Ho] & team & Hteam & Hid).
  destruct (head_filter_is_Some
              (λ team, Team.team_id team = DraftPick.team_id pick)
              (DraftData.teams draft_data) team Hteam Hid) as [team' Hhead].
  unfold Commands.pick_line, Commands.team_info, Py.next.
  rewrite Hhead, Hr, Ho. simpl. eauto.
Qed.

Lemma fmap_Some_Forall2 {A L} (line : A → option L) (l : list A) (lines : list L) :
  Some <$> lines = line <$> l → Forall2 (λ x ln, line x = Some ln) l lines.
Proof.
  revert lines. induction l as [|x l IH]; intros [|ln lines] Heq;
    rewrite ?fmap_cons, ?fmap_nil in Heq; try discriminate Heq.
  - constructor.
  - injection Heq as Hx Heq. constructor; [done|by apply IH].
Qed.

(** The body of the keeper listings on picks that can all be printed. *)
Lemma list_picks_printable draft_data mark selected :
  selected ≠ [] → Forall (printable draft_data) selected →
  ∃ sorted lines,
    Commands.list_picks draft_data mark selected = Commands.Listed lines true ∧
    sorted ≡ₚ selected ∧
    Forall2 (λ pick ln, Commands.pick_line draft_data mark pick = Some ln)
            sorted lines ∧
    ∀ i j a b, (i < j)%nat → lines !! i = Some a → lines !! j = Some b →
      Commands.Line.overall_pick a ≤ Commands.Line.overall_pick b.
Proof.
  intros Hne Hall. unfold Commands.list_picks.
  destruct selected as [|pick0 selected0] eqn:Hsel; [done|]. rewrite <- Hsel in *.
  clear Hsel Hne.
  rewrite sort_by_key_Some
    by (eapply Forall_impl; [exact Hall|by intros ? (_ & ? & _)]).
  set (sorted := pd.stable_sort pd.asc_leb DraftPick.overall_pick selected).
  assert (sorted ≡ₚ selected) as Hperm by apply stable_sort_perm.
  assert (Forall (λ pick, is_Some (Commands.pick_line draft_data mark pick)) sorted)
    as Hlines.
  { rewrite Hperm. eapply Forall_impl; [exact Hall|].
    intros pick Hpick. by apply printable_line. }
  destruct (print_each_complete _ _ Hlines) as [Hdone Hprinted].
  exists sorted, (Py.print_each (Commands.pick_line draft_data mark) sorted).1.
  rewrite Hdone. split_and!; [done..| |].
  - by apply fmap_Some_Forall2.
  - apply (printed_lines_ascending (Commands.pick_line draft_data mark)
             Commands.Line.overall_pick sorted); [|  |done].
    + apply pick_line_overall.
    + apply stable_sort_sorted; [apply asc_leb_total|apply asc_leb_trans].
Qed.

(** X17: when every pick marked as keeper has its round, its overall pick
    and a team of its id, [list_keepers] prints one entry for each of them,
    and for no other pick, in ascending order of overall pick; the manager
    shown is the one of the first team of the file with the pick's id. *)
Theorem list_keepers_lists_every_keeper draft_data :
  let keepers :=
    filter (λ pick, DraftPick.keeper_status pick = true)
           (DraftData.draft_picks draft_data) in
  keepers ≠ [] → Forall (printable draft_data) keepers →
  ∃ sorted lines,
    Commands.list_keepers (Some draft_data) = Commands.Listed lines true ∧
    sorted ≡ₚ keepers ∧
    Forall2 (λ pick ln,
               DraftPick.round pick = Some (Commands.Line.round ln) ∧
               DraftPick.overall_pick pick = Some (Commands.Line.overall_pick ln) ∧
               Commands.Line.player_name ln = DraftPick.player_name pick ∧
               Commands.Line.drafting_team ln = DraftPick.drafting_team pick ∧
               ∃ team,
                 head (filter (λ team, Team.team_id team = DraftPick.team_id pick)
                              (DraftData.teams draft_data)) = Some team ∧
                 Commands.Line.manager ln = Team.manager team)
            sorted lines ∧
    ∀ i j a b, (i < j)%nat → lines !! i = Some a → lines !! j = Some b →
      Commands.Line.overall_pick a ≤ Commands.Line.overall_pick b.
Proof.
  intros keepers Hne Hall. unfold Commands.list_keepers. fold keepers.
  destruct (list_picks_printable draft_data (λ _, true) keepers Hne Hall)
    as (sorted & lines & -> & Hperm & Hlines & Hasc).
  exists sorted, lines. split_and!; [done..| |done].
  eapply Forall2_impl; [exact Hlines|].
  intros pick ln (team & ? & ? & ? & ? & ? & ? & _)%pick_line_Some.
  split_and!; eauto.
Qed.

(** X18: a pick marked as keeper whose team id is the id of no team makes
    [list_keepers] end with an error: it never runs to the end of its
    listing. *)
Theorem list_keepers_fails_on_unknown_team draft_data keeper lines :
  keeper ∈ DraftData.draft_picks draft_data →
  DraftPick.keeper_status keeper = true →
  Forall (λ team, Team.team_id team ≠ DraftPick.team_id keeper)
         (DraftData.teams draft_data) →
  Commands.list_keepers (Some draft_data) ≠ Commands.Listed lines true.
Proof.
  intros Hkeeper Hstatus Hteams. unfold Commands.list_keepers, Commands.list_picks.
  set (keepers := filter _ (DraftData.draft_picks draft_data)).
  assert (keeper ∈ keepers) as Hin by (by apply list_elem_of_filter).
  destruct keepers as [|k0 ks] eqn:Hk; [done|]. rewrite <- Hk in *. clear Hk.
  destruct (Py.sort_by_key DraftPick.overall_pick keepers) as [sorted|] eqn:Hsort;
    [|done].
  intros [= _ Hdone]. apply print_each_done in Hdone.
  unfold Py.sort_by_key in Hsort. case_decide; [|done]. injection Hsort as <-.
  rewrite stable_sort_perm, Forall_forall in Hdone.
  destruct (Hdone keeper Hin) as [ln (team & Hhead & _)%pick_line_Some].
  apply head_Some_elem_of, list_elem_of_filter in Hhead as [Hid Hteam].
  rewrite Forall_forall in Hteams. by apply (Hteams team).
Qed.

Lemma Forall2_filter_length {A B} (f : A → bool) (g : B → bool)
    (l1 : list A) (l2 : list B) :
  Forall2 (λ x y, g y = f x) l1 l2 →
  length (filter (λ y, g y = true) l2) = length (filter (λ x, f x = true) l1).
Proof.
  induction 1 as [|x y l1 l2 Hxy _ IH]; [done|].
  rewrite !filter_cons, Hxy. destruct (decide (f x = true)); simpl; by rewrite IH.
Qed.

(** X19: when every pick marked as keeper can be printed, [eligible_keepers]
    ends with the summary [eligible_count/len(keepers)], where the second
    number counts the picks marked as keeper and the first those of them
    that are eligible for 2025, the very picks whose draft record in the
    transform has both the keeper status and the eligibility. *)
Theorem eligible_keepers_summary draft_data :
  let keepers :=
    filter (λ pick, DraftPick.keeper_status pick = true)
           (DraftData.draft_picks draft_data) in
  keepers ≠ [] → Forall (printable draft_data) keepers →
  ∃ lines eligible_count,
    Commands.eligible_keepers (Some draft_data)
    = (Commands.Listed lines true, Some (eligible_count, length keepers)) ∧
    eligible_count
    = length (filter (λ pick, Commands.eligible_2025 pick = true) keepers) ∧
    eligible_count
    = length (filter (λ d, DraftRecord.keeper_status_2024 d = true ∧
                           DraftRecord.keeper_eligible_2025 d = true)
                     (draft_record (team_to_manager (DraftData.teams draft_data))
                        <$> DraftData.draft_picks draft_data)) ∧
    (eligible_count ≤ length keepers)%nat.
Proof.
  intros keepers Hne Hall. unfold Commands.eligible_keepers. fold keepers.
  destruct (list_picks_printable draft_data Commands.eligible_2025 keepers Hne Hall)
    as (sorted & lines & -> & Hperm & Hlines & _).
  assert (length (filter (λ ln, Commands.Line.mark ln = true) lines)
          = length (filter (λ pick, Commands.eligible_2025 pick = true) keepers))
    as Hcount.
  { rewrite <- Hperm. apply Forall2_filter_length.
    eapply Forall2_impl; [exact Hlines|].
    by intros pick ln (team & _ & _ & _ & _ & _ & _ & ?)%pick_line_Some. }
  eexists lines, _. split_and!; [done|exact Hcount| |].
  - rewrite Hcount. unfold keepers.
    rewrite filter_fmap, length_fmap, list_filter_filter. simpl.
    f_equal. apply list_filter_iff. intros pick.
    unfold Commands.eligible_2025. tauto.
  - rewrite Hcount. apply length_filter.
Qed.

(** X20: [keeper_ineligible] prints that all players are eligible exactly
    when the draft record of every pick has [2025_keeper_eligible] true in
    the transform, that is when no pick carries the key with a false
    value. *)
Theorem keeper_ineligible_none_iff draft_data :
  Commands.keeper_ineligible (Some draft_data) = Commands.NothingToList ↔
  ∀ pick, pick ∈ DraftData.draft_picks draft_data →
    DraftRecord.keeper_eligible_2025
      (draft_record (team_to_manager (DraftData.teams draft_data)) pick) = true.
Proof.
  unfold Commands.keeper_ineligible, Commands.list_picks.
  set (ineligible := filter _ (DraftData.draft_picks draft_data)). split.
  - intros Hnone pick Hpick.
    destruct (DraftRecord.keeper_eligible_2025 _) eqn:He; [done|]. exfalso.
    assert (pick ∈ ineligible) as Hin by (by apply list_elem_of_filter).
    destruct ineligible as [|p0 ps]; [by apply not_elem_of_nil in Hin|].
    by destruct (Py.sort_by_key _ _).
  - intros Hall. assert (ineligible = []) as ->; [|done].
    apply filter_none, Forall_forall. intros pick Hpick He.
    specialize (Hall pick Hpick). simpl in Hall.
    unfold Commands.eligible_2025 in He. congruence.
Qed.

Lemma Z_leb_total (a b : Z) : (a <=? b) = true ∨ (b <=? a) = true.
Proof. rewrite !Z.leb_le. lia. Qed.

Lemma Z_leb_trans (a b c : Z) :
  (a <=? b) = true → (b <=? c) = true → (a <=? c) = true.
Proof. rewrite !Z.leb_le. lia. Qed.

(** X21: [league_standings] prints every team of the file once, in
    ascending order of rank, teams of equal rank in the order of the file;
    it prints nothing of the kind only when the file cannot be read. *)
Theorem league_standings_sorted_by_rank draft_data :
  ∃ standings,
    Commands.league_standings (Some draft_data) = Some standings ∧
    standings ≡ₚ DraftData.teams draft_data ∧
    (∀ i j a b, (i < j)%nat → standings !! i = Some a → standings !! j = Some b →
       Team.rank a ≤ Team.rank b) ∧
    (∀ rank, filter (λ team, Team.rank team = rank) standings
             = filter (λ team, Team.rank team = rank) (DraftData.teams draft_data)) ∧
    Commands.league_standings None = None.
Proof.
  eexists. split; [done|]. unfold Py.sorted. split_and!; [| | |done].
  - apply stable_sort_perm.
  - intros i j a b Hij Ha Hb. apply Z.leb_le.
    exact (StronglySorted_lookup_lt _ _ _ _ _ _
             (stable_sort_sorted Z.leb Team.rank Z_leb_total Z_leb_trans _)
             Hij Ha Hb).
  - intros rank. apply stable_sort_filter.
    intros x y Hx Hy. unfold pd.key_le. rewrite Hx, Hy. apply Z.leb_refl.
Qed.

(** X22: when every pick of the file can be printed and the name typed
    matches exactly one pick, which is not a keeper yet, [update_keeper]
    followed by [list_keepers] lists that player: the listing of the data
    written runs to its end and holds an entry with his name and overall
    pick. *)
Theorem newly_marked_keeper_is_listed input draft_data before player after :
  Str.strip input ≠ "" →
  DraftData.draft_picks draft_data = before ++ player :: after →
  name_matches (Str.strip input) player →
  Forall (λ pick, ¬ name_matches (Str.strip input) pick) (before ++ after) →
  DraftPick.keeper_status player = false →
  Forall (printable draft_data) (DraftData.draft_picks draft_data) →
  ∃ written lines ln,
    update_keeper input (Some draft_data)
    = (Updated (DraftPick.player_name player) true, Some written) ∧
    Commands.list_keepers (Some written) = Commands.Listed lines true ∧
    ln ∈ lines ∧
    Commands.Line.player_name ln = DraftPick.player_name player ∧
    DraftPick.overall_pick player = Some (Commands.Line.overall_pick ln).
Proof.
  intros Hname Hpicks Hplayer Hothers Hstatus Hall.
  rewrite (update_keeper_single _ _ _ _ _ Hname Hpicks Hplayer Hothers), Hstatus.
  simpl negb.
  set (written := DraftData.mk _ _ _).
  set (keepers := filter (λ pick, DraftPick.keeper_status pick = true)
                         (DraftData.draft_picks written)).
  assert (with_keeper_status player true ∈ keepers) as Hin.
  { apply list_elem_of_filter. split; [done|]. simpl.
    apply elem_of_app. right. left. }
  assert (Forall (printable written) keepers) as Hprintable.
  { apply Forall_forall. intros pick [_ Hpick]%list_elem_of_filter.
    simpl in Hpick. rewrite Hpicks, Forall_app, Forall_cons in Hall.
    destruct Hall as (Hb & Hp & Ha). rewrite Forall_forall in Hb, Ha.
    apply elem_of_app in Hpick as [Hpick|Hpick].
    { by apply Hb. }
    apply elem_of_cons in Hpick as [->|Hpick]; [exact Hp|by apply Ha]. }
  assert (keepers ≠ []) as Hne.
  { intros Hnil. rewrite Hnil in Hin. by apply not_elem_of_nil in Hin. }
  destruct (list_picks_printable written (λ _, true) keepers Hne Hprintable)
    as (sorted & lines & Hlist & Hperm & Hlines & _).
  rewrite <- Hperm in Hin. apply list_elem_of_lookup in Hin as [i Hi].
  destruct (Forall2_lookup_l _ _ _ _ _ Hlines Hi) as (ln & Hln & Hline).
  apply pick_line_Some in Hline as (team & _ & _ & Ho & Hn & _).
  exists written, lines, ln. split_and!; try done.
  by eapply list_elem_of_lookup_2.
Qed.

(** ** The further properties on the example league *)

Lemma output_row_provenance_witness :
  transform Example.sources = Some Example.output ∧
  Example.kyren ∈ Example.output ∧
  ∃ pick ranking,
    pick ∈ Example.picks ∧ ranking ∈ Example.rankings ∧
    KeeperRecord.player_name Example.kyren = DraftPick.player_name pick ∧
    KeeperRecord.draft_rank_2025 Example.kyren = RankingRow.draft_rank_2025 ranking.
Proof.
  assert (transform Example.sources = Some Example.output) as Hout
    by (vm_compute; reflexivity).
  assert (Example.kyren ∈ Example.output) as Hin
    by (vm_compute; repeat constructor).
  split; [exact Hout|split; [exact Hin|]].
  destruct (output_row_provenance Example.sources Example.output Example.kyren
              Hout Hin)
    as (draft_data & fantasy_df & pick & ranking & Hd & Hf & Hpick & Hranking
        & _ & Hname & _ & _ & _ & Hrank & _).
  injection Hd as <-. injection Hf as <-. by exists pick, ranking.
Defined.

Lemma ranked_pick_in_output_witness :
  Example.puka_pick ∈ Example.picks ∧ Example.puka_ranking ∈ Example.rankings ∧
  ∃ rows r,
    transform Example.sources = Some rows ∧ r ∈ rows ∧
    KeeperRecord.player_name r = "Puka Nacua " ∧
    KeeperRecord.overall_pick_2024 r = Some 160 ∧
    KeeperRecord.draft_rank_2025 r = Some 13 ∧
    KeeperRecord.position_rank_2025 r = Some "WR6".
Proof.
  assert (Example.puka_pick ∈ Example.picks) as Hpick
    by (vm_compute; repeat constructor).
  assert (Example.puka_ranking ∈ Example.rankings) as Hranking
    by (vm_compute; repeat constructor).
  split; [exact Hpick|split; [exact Hranking|]].
  apply (ranked_pick_in_output Example.sources Example.draft_data Example.rankings
           Example.puka_pick Example.puka_ranking 13 eq_refl eq_refl Hpick Hranking);
    [vm_compute; reflexivity|reflexivity|].
  intros position [= <-]. split; reflexivity.
Defined.

Lemma unique_rankings_at_most_one_row_per_pick_witness :
  NoDup (clean_ranking <$> Example.rankings) ∧
  transform Example.sources = Some Example.output ∧
  (length Example.output ≤ length Example.picks)%nat.
Proof.
  assert (NoDup (clean_ranking <$> Example.rankings)) as Hnodup.
  { vm_compute. repeat (constructor; [rewrite ?not_elem_of_cons;
      split_and?; (discriminate || apply not_elem_of_nil)|]). constructor. }
  assert (transform Example.sources = Some Example.output) as Hout
    by (vm_compute; reflexivity).
  split; [exact Hnodup|split; [exact Hout|]].
  exact (proj2 (unique_rankings_at_most_one_row_per_pick Example.sources
                  Example.draft_data Example.rankings Example.output
                  eq_refl eq_refl Hnodup Hout)).
Defined.

Lemma keeper_round_at_least_1_witness :
  transform Example.sources = Some Example.output ∧
  Example.bijan ∈ Example.output ∧
  KeeperRecord.keeper_round_2025 Example.bijan = Some 1 ∧
  1 ≤ 1.
Proof.
  assert (transform Example.sources = Some Example.output) as Hout
    by (vm_compute; reflexivity).
  assert (Example.bijan ∈ Example.output) as Hin
    by (vm_compute; repeat constructor).
  split_and!; [exact Hout|exact Hin|reflexivity|].
  exact (proj1 (keeper_round_at_least_1 Example.sources Example.output
                  Example.bijan 1 Hout Hin eq_refl)).
Defined.

Lemma projected_round_monotone_witness :
  transform Example.sources = Some Example.output ∧
  Example.kyren ∈ Example.output ∧ Example.mason ∈ Example.output ∧
  ∃ projected1 projected2,
    KeeperRecord.projected_draft_round_2025 Example.kyren = Some projected1 ∧
    KeeperRecord.projected_draft_round_2025 Example.mason = Some projected2 ∧
    projected1 ≤ projected2 ∧ (1 ≤ 12 → 1 ≤ projected1).
Proof.
  assert (transform Example.sources = Some Example.output) as Hout
    by (vm_compute; reflexivity).
  assert (Example.kyren ∈ Example.output) as Hin1
    by (vm_compute; repeat constructor).
  assert (Example.mason ∈ Example.output) as Hin2
    by (vm_compute; repeat constructor).
  split_and!; [exact Hout|exact Hin1|exact Hin2|].
  apply (projected_round_monotone Example.sources Example.output
           Example.kyren Example.mason 12 100 Hout Hin1 Hin2 eq_refl eq_refl).
  lia.
Defined.

Lemma api_managers_lists_each_manager_once_witness :
  transform Example.sources = Some Example.output ∧ Example.output ≠ [] ∧
  Web.api_managers Example.sources = Web.Managers ["Avery"; "Blake"] ∧
  ∃ managers,
    Web.api_managers Example.sources = Web.Managers managers ∧ NoDup managers.
Proof.
  assert (transform Example.sources = Some Example.output) as Hout
    by (vm_compute; reflexivity).
  assert (Example.output ≠ []) as Hne by (vm_compute; discriminate).
  split_and!; [exact Hout|exact Hne|vm_compute; reflexivity|].
  destruct (api_managers_lists_each_manager_once Example.sources Example.output
              Hout Hne) as (managers & Hm & _ & Hnodup & _).
  by exists managers.
Defined.

Lemma unlisted_manager_has_no_recommendations_witness :
  transform Example.sources = Some Example.output ∧ Example.output ≠ [] ∧
  Web.api_managers Example.sources = Web.Managers ["Avery"; "Blake"] ∧
  ("Casey" ∉ ["Avery"; "Blake"]) ∧
  api_keeper_recommendations Example.sources "Casey" = NoEligibleKeepers "Casey".
Proof.
  assert (transform Example.sources = Some Example.output) as Hout
    by (vm_compute; reflexivity).
  assert (Example.output ≠ []) as Hne by (vm_compute; discriminate).
  assert (Web.api_managers Example.sources = Web.Managers ["Avery"; "Blake"]) as Hm
    by (vm_compute; reflexivity).
  assert ("Casey" ∉ ["Avery"; "Blake"]) as Hnot.
  { rewrite !not_elem_of_cons. split_and!; (discriminate || apply not_elem_of_nil). }
  split_and!; [exact Hout|exact Hne|exact Hm|exact Hnot|].
  exact (proj1 (unlisted_manager_has_no_recommendations Example.sources
                  Example.output ["Avery"; "Blake"] "Casey" Hout Hne Hm) Hnot).
Defined.

Lemma keeper_analysis_pages_agree_on_rows_witness :
  transform Example.sources = Some Example.output ∧ Example.output ≠ [] ∧
  Commands.keeper_analysis_web Example.sources = Web.keeper_analysis Example.sources ∧
  transform Example.sources_unranked = Some [] ∧
  Commands.keeper_analysis_web Example.sources_unranked = KeeperAnalysisPage [] [].
Proof.
  assert (transform Example.sources = Some Example.output) as Hout
    by (vm_compute; reflexivity).
  assert (Example.output ≠ []) as Hne by (vm_compute; discriminate).
  assert (transform Example.sources_unranked = Some []) as Hempty
    by (vm_compute; reflexivity).
  split_and!; [exact Hout|exact Hne| |exact Hempty|].
  - exact (proj2 (proj1 (keeper_analysis_pages_agree_on_rows
                           Example.sources Example.output Hout) Hne)).
  - exact (proj2 (proj2 (keeper_analysis_pages_agree_on_rows
                           Example.sources_unranked [] Hempty) eq_refl)).
Defined.

Lemma update_keeper_writes_only_keeper_flags_witness :
  (update_keeper "  puka " (Some Example.draft_data)).2
  = Some Example.draft_data_puka_released ∧
  DraftData.teams Example.draft_data_puka_released = DraftData.teams Example.draft_data.
Proof.
  assert ((update_keeper "  puka " (Some Example.draft_data)).2
          = Some Example.draft_data_puka_released) as Hw
    by (vm_compute; reflexivity).
  split; [exact Hw|].
  destruct (update_keeper_writes_only_keeper_flags "  puka "
              (Some Example.draft_data) Example.draft_data_puka_released Hw)
    as (_ & draft_data & player & Hfile & _ & _ & Hteams & _).
  injection Hfile as <-. exact Hteams.
Defined.

Lemma update_keeper_twice_restores_witness :
  Str.strip "  puka " ≠ "" ∧
  ∃ written,
    update_keeper "  puka " (Some Example.draft_data)
    = (Updated "Puka Nacua " false, Some written) ∧
    update_keeper "  puka " (Some written)
    = (Updated "Puka Nacua " true, Some Example.draft_data).
Proof.
  assert (Str.strip "  puka " ≠ "") as Hname by (vm_compute; discriminate).
  split; [exact Hname|].
  refine (update_keeper_twice_restores "  puka " Example.draft_data
            [Example.bijan_pick; Example.kyren_pick] Example.puka_pick
            [Example.tucker_pick; Example.mason_pick; Example.squad_pick]
            Hname eq_refl _ _).
  - vm_compute. reflexivity.
  - repeat (constructor; [vm_compute; discriminate|]). constructor.
Defined.

Lemma keeper_toggle_leaves_analysis_witness :
  (update_keeper "  puka " (Some Example.draft_data)).2
  = Some Example.draft_data_puka_released ∧
  (λ rows : list KeeperRecord.t, sans_status <$> rows)
    <$> transform {| draft_results := Some Example.draft_data_puka_released;
                     fantasy_pros := Some Example.rankings |}
  = (λ rows : list KeeperRecord.t, sans_status <$> rows)
    <$> transform {| draft_results := Some Example.draft_data;
                     fantasy_pros := Some Example.rankings |}.
Proof.
  assert ((update_keeper "  puka " (Some Example.draft_data)).2
          = Some Example.draft_data_puka_released) as Hw
    by (vm_compute; reflexivity).
  split; [exact Hw|].
  exact (keeper_toggle_leaves_analysis "  puka " Example.draft_data
           Example.draft_data_puka_released (Some Example.rankings) Hw).
Defined.

Lemma team_roster_lists_the_team_witness :
  Str.strip "zone" ≠ "" ∧
  ∃ lines,
    Commands.team_roster "zone" (Some Example.draft_data) = Commands.Listed lines true.
Proof.
  assert (Str.strip "zone" ≠ "") as Hname by (vm_compute; discriminate).
  split; [exact Hname|].
  destruct (team_roster_lists_the_team "zone" Example.draft_data
              [Example.gridiron] Example.end_zone [] Hname eq_refl)
    as (sorted & lines & Hroster & _).
  - vm_compute. reflexivity.
  - repeat (constructor; [vm_compute; discriminate|]). constructor.
  - repeat (constructor;
              [intros Hid;
               first [discriminate Hid | split; eexists; reflexivity]|]).
    constructor.
  - by exists lines.
Defined.

Lemma team_roster_breaks_on_missing_keys_witness :
  Str.strip "gridiron" ≠ "" ∧
  ∃ lines,
    Commands.team_roster "gridiron" (Some Example.draft_data)
    = Commands.Listed lines false ∧
    (length lines < 3)%nat.
Proof.
  assert (Str.strip "gridiron" ≠ "") as Hname by (vm_compute; discriminate).
  split; [exact Hname|].
  refine (proj2 (team_roster_breaks_on_missing_keys "gridiron" Example.draft_data
                   [] Example.gridiron [Example.end_zone] Hname eq_refl _ _) _ _).
  - vm_compute. reflexivity.
  - repeat (constructor; [vm_compute; discriminate|]). constructor.
  - repeat (constructor; [eexists; reflexivity|]). constructor.
  - intros Hall. rewrite Forall_forall in Hall.
    destruct (Hall Example.mason_pick) as [round Hround]; [|discriminate Hround].
    vm_compute. repeat constructor.
Defined.

Lemma list_keepers_lists_every_keeper_witness :
  filter (λ pick, DraftPick.keeper_status pick = true)
         (DraftData.draft_picks Example.draft_data) ≠ [] ∧
  ∃ lines,
    Commands.list_keepers (Some Example.draft_data) = Commands.Listed lines true.
Proof.
  assert (filter (λ pick, DraftPick.keeper_status pick = true)
                 (DraftData.draft_picks Example.draft_data) ≠ []) as Hne
    by (vm_compute; discriminate).
  split; [exact Hne|].
  destruct (list_keepers_lists_every_keeper Example.draft_data Hne)
    as (sorted & lines & Hlist & _).
  - constructor; [|constructor].
    split_and!; [eexists; reflexivity..|].
    exists Example.gridiron. split; [left|reflexivity].
  - by exists lines.
Defined.

Lemma list_keepers_fails_on_unknown_team_witness :
  Example.ghost_pick ∈ DraftData.draft_picks Example.draft_data_orphan ∧
  DraftPick.keeper_status Example.ghost_pick = true ∧
  Commands.list_keepers (Some Example.draft_data_orphan) ≠ Commands.Listed [] true.
Proof.
  assert (Example.ghost_pick ∈ DraftData.draft_picks Example.draft_data_orphan)
    as Hin by (vm_compute; repeat constructor).
  split_and!; [exact Hin|reflexivity|].
  apply (list_keepers_fails_on_unknown_team Example.draft_data_orphan
           Example.ghost_pick [] Hin eq_refl).
  repeat (constructor; [vm_compute; discriminate|]). constructor.
Defined.

Lemma eligible_keepers_summary_witness :
  filter (λ pick, DraftPick.keeper_status pick = true)
         (DraftData.draft_picks Example.draft_data) ≠ [] ∧
  ∃ lines,
    Commands.eligible_keepers (Some Example.draft_data)
    = (Commands.Listed lines true, Some (1%nat, 1%nat)).
Proof.
  assert (filter (λ pick, DraftPick.keeper_status pick = true)
                 (DraftData.draft_picks Example.draft_data) ≠ []) as Hne
    by (vm_compute; discriminate).
  split; [exact Hne|].
  destruct (eligible_keepers_summary Example.draft_data Hne)
    as (lines & eligible_count & Hsummary & -> & _).
  - constructor; [|constructor].
    split_and!; [eexists; reflexivity..|].
    exists Example.gridiron. split; [left|reflexivity].
  - by exists lines.
Defined.

Lemma newly_marked_keeper_is_listed_witness :
  Str.strip "kyren" ≠ "" ∧
  DraftPick.keeper_status Example.kyren_pick = false ∧
  ∃ written lines ln,
    update_keeper "kyren" (Some Example.draft_data_complete)
    = (Updated "Kyren Williams" true, Some written) ∧
    Commands.list_keepers (Some written) = Commands.Listed lines true ∧
    ln ∈ lines ∧ Commands.Line.player_name ln = "Kyren Williams" ∧
    Some 94 = Some (Commands.Line.overall_pick ln).
Proof.
  assert (Str.strip "kyren" ≠ "") as Hname by (vm_compute; discriminate).
  split_and!; [exact Hname|reflexivity|].
  refine (newly_marked_keeper_is_listed "kyren" Example.draft_data_complete
            [Example.bijan_pick] Example.kyren_pick
            [Example.puka_pick; Example.tucker_pick] Hname eq_refl _ _ eq_refl _).
  - vm_compute. reflexivity.
  - repeat (constructor; [vm_compute; discriminate|]). constructor.
  - repeat (constructor;
      [split_and!; [eexists; reflexivity..|];
       first [exists Example.gridiron; split; [left|reflexivity]
             |exists Example.end_zone; split; [right; left|reflexivity]]|]).
    constructor.
Defined.


Lemma internal_error_iff_no_keeper_round_witness :
  filter (eligible_for "Avery")
    (Api.create_keeper_analysis_dataframe Example.sources_mason) ≠ [] ∧
  api_keeper_recommendations Example.sources_mason "Avery" = InternalServerError.
Proof.
  assert (filter (eligible_for "Avery")
            (Api.create_keeper_analysis_dataframe Example.sources_mason) ≠ [])
    as Hne by (vm_compute; discriminate).
  split; [exact Hne|].
  apply (internal_error_iff_no_keeper_round Example.sources_mason "Avery").
  split; [exact Hne|].
  intros draft_data pick [= <-] Hpick.
  apply list_elem_of_singleton in Hpick as ->. split; [discriminate|reflexivity].
Defined.
